(** Verification model of the CORD-19 metadata exploration pipeline
    (src/PLP-Python8/Data_Analysis.py, batch script, and
     src/PLP-Python8/streamlit_app.py, interactive dashboard).

    Data model.  A pandas cell is [option string] (None is NaN).  The
    loaded DataFrame is a header plus rows keyed by their index label (the
    RangeIndex position, or an implicit index when the first data line is
    wider than the header); cleaning keeps the labels, so a cleaned table is
    [list (Label * CRow)].
    The external library functions whose behaviour is only known by their
    contract (pandas' [to_datetime], [Series.sort_values] with its default
    non-stable quicksort, [Series.sort_index]) are parameters of the
    definitions, and the theorems quantify over every function meeting the
    contract.  Python's [sorted] (used by [Counter.most_common]) is stable by
    its specification, so it is modelled by a stable insertion sort. *)

From Stdlib Require Import String Ascii List ZArith NArith Lia Permutation Sorted Bool
  DecimalString.
Import ListNotations.
Open Scope bool_scope.
Open Scope string_scope.
Open Scope list_scope.

(* ------------------------------------------------------------------ *)
(** * Cells, rows, dates *)

Definition cell := option string.

(** One row of [df[COLUMNS_TO_KEEP]]. *)
Record Row := mkRow {
  title : cell; abstract : cell; publish_time : cell;
  authors : cell; journal : cell; source_x : cell; url : cell }.

(** A pandas Timestamp, down to the day. *)
Record Date := mkDate { year : Z; month : Z; day : Z }.

(** A row after [pd.to_datetime] replaced [publish_time] (None is NaT). *)
Record DRow := mkDRow {
  d_title : cell; d_abstract : cell; d_publish_time : option Date;
  d_authors : cell; d_journal : cell; d_source_x : cell; d_url : cell }.

(** A row of the cleaned table, with the derived [publication_year]. *)
Record CRow := mkCRow {
  c_title : cell; c_abstract : cell; c_publish_time : Date;
  c_authors : cell; c_journal : cell; c_source_x : cell; c_url : cell;
  c_publication_year : Z }.

(** A row label: the RangeIndex position, or the values of the implicit
    index pandas builds when the first data line has more fields than the
    header. *)
Inductive Label :=
| RangeLabel (i : nat)
| IndexLabel (vs : list cell).

Definition Table := list (Label * Row).

(** [l1] is [l2] with some elements left out. *)
Inductive subseq {A : Type} : list A -> list A -> Prop :=
| subseq_nil : subseq [] []
| subseq_skip x l1 l2 : subseq l1 l2 -> subseq l1 (x :: l2)
| subseq_keep x l1 l2 : subseq l1 l2 -> subseq (x :: l1) (x :: l2).
Definition CTable := list (Label * CRow).

(* ------------------------------------------------------------------ *)
(** * Generic helpers: counting as [Counter] / [value_counts] do, sorting *)

Section Counting.
Variable A : Type.
Variable dec : forall x y : A, {x = y} + {x <> y}.

(** [self[elem] = self.get(elem, 0) + 1]: dict insertion order is the
    order of first occurrence. *)
Fixpoint counter_add (c : list (A * nat)) (w : A) : list (A * nat) :=
  match c with
  | [] => [(w, 1)]
  | (k, n) :: c' => if dec k w then (k, S n) :: c' else (k, n) :: counter_add c' w
  end.

Definition counter (ws : list A) : list (A * nat) := fold_left counter_add ws [].

(** Position of the first occurrence of [w] in [ws]. *)
Fixpoint index_of (w : A) (ws : list A) : nat :=
  match ws with
  | [] => 0
  | x :: ws' => if dec x w then 0 else S (index_of w ws')
  end.
End Counting.

Arguments counter_add {A} dec c w.
Arguments counter {A} dec ws.
Arguments index_of {A} dec w ws.

(** What the counting pass maintains after reading the prefix [p]: its
    keys are the words of [p], in order of first occurrence, and its counts
    add up to the length of [p]. *)
Definition counter_inv {A} (dec : forall x y : A, {x = y} + {x <> y})
    (p : list A) (c : list (A * nat)) : Prop :=
  (forall k, In k (map fst c) <-> In k p) /\
  StronglySorted (fun a b => index_of dec a p < index_of dec b p) (map fst c) /\
  list_sum (map snd c) = length p.

Section Sorting.
Variable T : Type.
Variable le : T -> T -> bool.

(** Insertion of [x] in front of the first element it may precede. *)
Fixpoint insert_by (x : T) (l : list T) : list T :=
  match l with
  | [] => [x]
  | y :: l' => if le x y then x :: y :: l' else y :: insert_by x l'
  end.

Definition isort (l : list T) : list T := fold_right insert_by [] l.
End Sorting.

Arguments insert_by {T} le x l.
Arguments isort {T} le l.

(** [sorted(items, key=itemgetter(1), reverse=True)]: stable, so an earlier
    item is placed before a later one of equal count. *)
Definition sorted_desc_stable {A} (l : list (A * nat)) : list (A * nat) :=
  isort (fun x y => Nat.leb (snd y) (snd x)) l.

(** [Counter.most_common(n)] = [heapq.nlargest(n, items, key=itemgetter(1))],
    documented equal to [sorted(items, key=..., reverse=True)[:n]]. *)
Definition most_common {A} (n : nat) (c : list (A * nat)) : list (A * nat) :=
  firstn n (sorted_desc_stable c).

(** The contract of pandas' [sort_values(ascending=False)] on counts: a
    permutation ordered by non-increasing count.  Its default kind is
    quicksort, which is not stable, so it fixes nothing about ties. *)
Definition sort_values_contract (sd : forall A : Type, list (A * nat) -> list (A * nat)) : Prop :=
  forall A (l : list (A * nat)),
    Permutation l (sd A l) /\ Sorted (fun a b => snd b <= snd a) (sd A l).

(** The contract of pandas' [sort_index()] on a year-indexed series. *)
Definition sort_index_contract (si : list (Z * nat) -> list (Z * nat)) : Prop :=
  forall l, Permutation l (si l) /\ Sorted (fun a b => (fst a <= fst b)%Z) (si l).

(* ------------------------------------------------------------------ *)
(** * Text processing of [tokenize_and_clean] *)

(** [str.lower] on code points 0..255: only A-Z map into a-z. *)
Definition lower_char (c : ascii) : ascii :=
  let n := nat_of_ascii c in
  if (65 <=? n)%nat && (n <=? 90)%nat then ascii_of_nat (n + 32) else c.

(** Python's whitespace ([str.isspace], regex [\s]) on code points 0..255. *)
Definition is_space (c : ascii) : bool :=
  let n := nat_of_ascii c in
  ((9 <=? n)%nat && (n <=? 13)%nat) || ((28 <=? n)%nat && (n <=? 32)%nat)
  || (n =? 133)%nat || (n =? 160)%nat.

Definition is_lower (c : ascii) : bool :=
  let n := nat_of_ascii c in (97 <=? n)%nat && (n <=? 122)%nat.

(** [re.sub(r'[^a-z\s]', '', text)] *)
Definition strip_non_letters (cs : list ascii) : list ascii :=
  filter (fun c => is_lower c || is_space c) cs.

(** [str.split()]: split on runs of whitespace, no empty pieces. *)
Fixpoint split_ws_aux (cs : list ascii) (cur : list ascii) : list (list ascii) :=
  match cs with
  | [] => match cur with [] => [] | _ => [rev cur] end
  | c :: cs' =>
      if is_space c then
        match cur with
        | [] => split_ws_aux cs' []
        | _ => rev cur :: split_ws_aux cs' []
        end
      else split_ws_aux cs' (c :: cur)
  end.

Definition split_ws (cs : list ascii) : list string :=
  map string_of_list_ascii (split_ws_aux cs []).

Definition tokenize_and_clean (text : string) : list string :=
  let text := map lower_char (list_ascii_of_string text) in
  let text := strip_non_letters text in
  filter (fun w => Nat.ltb 2 (String.length w)) (split_ws text).

(** The loop over [full_text] with the [isinstance(text, str)] check. *)
Definition all_words (texts : list cell) : list string :=
  flat_map (fun t => match t with Some s => tokenize_and_clean s | None => [] end) texts.

Definition mem (w : string) (ws : list string) : bool := existsb (String.eqb w) ws.

Definition filtered_words (stop : list string) (ws : list string) : list string :=
  filter (fun w => negb (mem w stop)) ws.

(** TopTokens over a sequence of texts. *)
Definition top_texts (stop : list string) (n : nat) (texts : list cell) : list (string * nat) :=
  most_common n (counter string_dec (filtered_words stop (all_words texts))).

(** [df['title'] + ' ' + df['abstract']] (batch) *)
Definition full_text_batch (r : CRow) : cell :=
  match c_title r, c_abstract r with
  | Some t, Some a => Some (t ++ " " ++ a)%string
  | _, _ => None
  end.

(** [df['title'] + ' ' + df['abstract'].fillna('')] (interactive) *)
Definition full_text_interactive (r : CRow) : cell :=
  match c_title r with
  | Some t => Some (t ++ " " ++ match c_abstract r with Some a => a | None => "" end)%string
  | None => None
  end.

Definition top_tokens (full_text : CRow -> cell) (stop : list string) (n : nat)
    (t : CTable) : list (string * nat) :=
  top_texts stop n (map (fun p => full_text (snd p)) t).

(* ------------------------------------------------------------------ *)
(** * Aggregators over a cleaned table *)

(** [...value_counts()]: count the non-NaN values (dropna=True), then
    [sort_values(ascending=False)]. *)
Definition value_counts {A} (dec : forall x y : A, {x = y} + {x <> y})
    (sd : forall A : Type, list (A * nat) -> list (A * nat)) (vals : list A) : list (A * nat) :=
  sd A (counter dec vals).

Definition dropna_values (cs : list cell) : list string :=
  flat_map (fun c => match c with Some s => [s] | None => [] end) cs.

Definition cell_eqb (c : cell) (s : string) : bool :=
  match c with Some v => String.eqb v s | None => false end.

(** The values counted by [top_journals]:
    [df[df['journal'] != 'Unknown Journal']['journal']] without its NaNs. *)
Definition journals_counted (t : CTable) : list string :=
  let kept := filter (fun p => negb (cell_eqb (c_journal (snd p)) "Unknown Journal")) t in
  dropna_values (map (fun p => c_journal (snd p)) kept).

(** [df[df['journal'] != 'Unknown Journal']['journal'].value_counts().head(n)] *)
Definition top_journals (sd : forall A : Type, list (A * nat) -> list (A * nat))
    (n : nat) (t : CTable) : list (string * nat) :=
  firstn n (value_counts string_dec sd (journals_counted t)).

(** [df['publication_year'].value_counts().sort_index()] *)
Definition publications_over_time (sd : forall A : Type, list (A * nat) -> list (A * nat))
    (si : list (Z * nat) -> list (Z * nat)) (t : CTable) : list (Z * nat) :=
  si (value_counts Z.eq_dec sd (map (fun p => c_publication_year (snd p)) t)).

(* ------------------------------------------------------------------ *)
(** * Cleaner *)

Definition fillna (v : string) (c : cell) : cell :=
  match c with None => Some v | Some s => Some s end.

(** [authors.fillna('Unknown Author')], [journal.fillna('Unknown Journal')] *)
Definition step_fill (t : Table) : Table :=
  map (fun '(i, r) =>
         (i, mkRow (title r) (abstract r) (publish_time r)
                   (fillna "Unknown Author" (authors r))
                   (fillna "Unknown Journal" (journal r))
                   (source_x r) (url r))) t.

(** [dropna(subset=['abstract'])] *)
Definition step_drop_abstract (t : Table) : Table :=
  filter (fun '(i, r) => match abstract r with Some _ => true | None => false end) t.

(** [pd.to_datetime(df['publish_time'], errors='coerce')]: [to_datetime] is
    the per-value parser, None on failure (NaT); a NaN input gives NaT. *)
Definition step_to_datetime (to_datetime : string -> option Date) (t : Table)
    : list (Label * DRow) :=
  map (fun '(i, r) =>
         (i, mkDRow (title r) (abstract r)
                    (match publish_time r with Some s => to_datetime s | None => None end)
                    (authors r) (journal r) (source_x r) (url r))) t.

(** [dropna(subset=['publish_time'])], keeping the parsed date at hand. *)
Definition step_drop_nat (t : list (Label * DRow)) : list (Label * DRow * Date) :=
  fold_right (fun '(i, r) acc =>
                match d_publish_time r with
                | Some d => (i, r, d) :: acc
                | None => acc
                end) [] t.

(** [df['publication_year'] = df['publish_time'].dt.year] (through
    [year_of], the identity in the batch script and [astype('int32')] in the
    dashboard). *)
Definition step_year (year_of : Z -> Z) (t : list (Label * DRow * Date)) : CTable :=
  map (fun '(i, r, d) =>
         (i, mkCRow (d_title r) (d_abstract r) d (d_authors r) (d_journal r)
                    (d_source_x r) (d_url r) (year_of (year d)))) t.

Definition clean (to_datetime : string -> option Date) (year_of : Z -> Z) (t : Table) : CTable :=
  step_year year_of (step_drop_nat (step_to_datetime to_datetime
                                     (step_drop_abstract (step_fill t)))).

(** What the spec promises of a row [c] labelled [i] in the cleaned table:
    it comes from the input row [r] with the same label, its abstract is
    present, its date is the parse of [r]'s [publish_time] and its year the
    year of that date, and authors/journal are the original values or the
    sentinels. *)
Definition retained_record (to_datetime : string -> option Date) (t : Table)
    (i : Label) (c : CRow) : Prop :=
  exists r s,
    In (i, r) t /\ publish_time r = Some s /\ to_datetime s = Some (c_publish_time c) /\
    c_abstract c = abstract r /\ c_abstract c <> None /\
    c_publication_year c = year (c_publish_time c) /\
    ((authors r <> None /\ c_authors c = authors r) \/
     (authors r = None /\ c_authors c = Some "Unknown Author")) /\
    ((journal r <> None /\ c_journal c = journal r) \/
     (journal r = None /\ c_journal c = Some "Unknown Journal")).

(** [astype('int32')]: two's complement wrap to 32 bits. *)
Definition wrap32 (z : Z) : Z := ((z + 2 ^ 31) mod 2 ^ 32 - 2 ^ 31)%Z.

(* ------------------------------------------------------------------ *)
(** * Loader: [pd.read_csv(path, nrows=..., on_bad_lines=...)] *)

Inductive exn :=
| FileNotFoundError
| UnicodeDecodeError
| EmptyDataError
| ParserError
| KeyError (col : string)
| NameError (name : string)
| StreamlitAPIException.

Inductive result (T : Type) := Ok (v : T) | Err (e : exn).
Arguments Ok {T} v.
Arguments Err {T} e.

(** A file on disk: the lines of a delimited text, each already split into
    its fields (a blank line has none), or bytes that do not decode. *)
Inductive Source :=
| Csv (lines : list (list string))
| Undecodable.

Definition FS := string -> option Source.

Inductive BadLines := OnBadError | OnBadSkip.

(** pandas' default NA strings. *)
Definition na_values : list string :=
  [""; "#N/A"; "#N/A N/A"; "#NA"; "-1.#IND"; "-1.#QNAN"; "-NaN"; "-nan";
   "1.#IND"; "1.#QNAN"; "<NA>"; "N/A"; "NA"; "NULL"; "NaN"; "None"; "n/a";
   "nan"; "null"].

Definition to_cell (s : string) : cell := if mem s na_values then None else Some s.

(** Short lines are padded with NaN. *)
Fixpoint pad (k : nat) (fs : list string) : list cell :=
  match k, fs with
  | 0, _ => []
  | S k', [] => None :: pad k' []
  | S k', f :: fs' => to_cell f :: pad k' fs'
  end.

(** A data line of [w] fields once padded; its first [k] fields are the
    implicit index when [k > 0], and [i] is its RangeIndex label otherwise. *)
Definition make_row (k w i : nat) (l : list string) : Label * list cell :=
  let cs := pad w l in
  match k with
  | 0 => (RangeLabel i, cs)
  | _ => (IndexLabel (firstn k cs), skipn k cs)
  end.

(** The C tokenizer on the data lines: blank lines are skipped; a line
    with more than the expected [w] fields is a bad line, an error or
    skipped without counting; the others are padded to [w] fields.  Lines
    are read until [n] rows are produced. *)
Fixpoint read_lines (w k : nat) (mode : BadLines) (n : N) (i : nat)
    (lines : list (list string)) : result (list (Label * list cell)) :=
  match lines with
  | [] => Ok []
  | l :: ls =>
      if N.eqb n 0 then Ok []
      else match l with
      | [] => read_lines w k mode n i ls
      | _ =>
          if Nat.ltb w (length l) then
            match mode with
            | OnBadError => Err ParserError
            | OnBadSkip => read_lines w k mode n i ls
            end
          else
            match read_lines w k mode (N.pred n) (S i) ls with
            | Ok rows => Ok (make_row k w i l :: rows)
            | Err e => Err e
            end
      end
  end.


(** Leading blank lines. *)
Fixpoint drop_blank (ls : list (list string)) : list (list string) :=
  match ls with
  | [] :: ls' => drop_blank ls'
  | _ => ls
  end.

(** The number of fields of the first data line (0 without one). *)
Definition first_width (ls : list (list string)) : nat :=
  match drop_blank ls with
  | l :: _ => length l
  | [] => 0
  end.

Definition string_of_nat (n : nat) : string := NilEmpty.string_of_uint (Nat.to_uint n).

Fixpoint list_set {A} (l : list A) (i : nat) (x : A) : list A :=
  match l, i with
  | [], _ => []
  | _ :: l', 0 => x :: l'
  | y :: l', S i' => y :: list_set l' i' x
  end.

Fixpoint count_of (c : string) (counts : list (string * nat)) : nat :=
  match counts with
  | [] => 0
  | (k, v) :: cs => if String.eqb k c then v else count_of c cs
  end.

(** The header names of [TextReader._get_header]: an empty name at
    position [i] becomes "Unnamed: i". *)
Definition unnamed_name (i : nat) (s : string) : string :=
  if String.eqb s "" then ("Unnamed: " ++ string_of_nat i)%string else s.

(** Its [while cur_count > 0] loop renaming a duplicate [old_col] to
    [old_col.cur_count]; [counts] is the dict (latest binding first) and
    [hdr] the header being renamed.  Every round but the last moves to a
    name of [hdr], all different, so [S (length hdr)] rounds let it end. *)
Fixpoint dedup_while (fuel : nat) (hdr : list string) (counts : list (string * nat))
    (old_col col : string) (cur : nat) : string * nat * list (string * nat) :=
  match fuel with
  | 0 => (col, cur, counts)
  | S f =>
      match cur with
      | 0 => (col, cur, counts)
      | _ =>
          let counts := (old_col, S cur) :: counts in
          let col := (old_col ++ "." ++ string_of_nat cur)%string in
          let cur := if mem col hdr then S cur else count_of col counts in
          dedup_while f hdr counts old_col col cur
      end
  end.

(** The [for i in col_loop_order] loop. *)
Fixpoint dedup_at (order : list nat) (hdr : list string) (counts : list (string * nat))
    : list string :=
  match order with
  | [] => hdr
  | i :: order' =>
      let col := nth i hdr "" in
      let '(col', cur, counts') :=
        dedup_while (S (length hdr)) hdr counts col col (count_of col counts) in
      dedup_at order' (list_set hdr i col') ((col', S cur) :: counts')
  end.

Fixpoint mapi_from {A B} (f : nat -> A -> B) (i : nat) (l : list A) : list B :=
  match l with
  | [] => []
  | x :: l' => f i x :: mapi_from f (S i) l'
  end.

(** [col_loop_order]: the named columns first, then the unnamed ones. *)
Definition header_names (h : list string) : list string :=
  let hdr := mapi_from unnamed_name 0 h in
  let idx := seq 0 (length h) in
  let unnamed i := String.eqb (nth i h "") "" in
  dedup_at (filter (fun i => negb (unnamed i)) idx ++ filter unnamed idx) hdr [].

Record Frame := mkFrame { columns : list string; frame_rows : list (Label * list cell) }.

(** [pd.read_csv] with the C engine: the first non-blank line is the
    header (none: EmptyDataError).  The first data line is never a bad
    line; when it has more fields than the header, the extra leading fields
    form the implicit index, and every line is expected to have that many
    fields. *)
Definition read_csv (fs : FS) (path : string) (nrows : N) (mode : BadLines) : result Frame :=
  match fs path with
  | None => Err FileNotFoundError
  | Some Undecodable => Err UnicodeDecodeError
  | Some (Csv lines) =>
      match drop_blank lines with
      | [] => Err EmptyDataError
      | h :: ls =>
          let w := Nat.max (length h) (first_width ls) in
          match read_lines w (w - length h) mode nrows 0 ls with
          | Ok rows => Ok (mkFrame (header_names h) rows)
          | Err e => Err e
          end
      end
  end.

Definition COLUMNS_TO_KEEP : list string :=
  ["title"; "abstract"; "publish_time"; "authors"; "journal"; "source_x"; "url"].

Fixpoint col_index (c : string) (h : list string) : option nat :=
  match h with
  | [] => None
  | x :: h' => if String.eqb x c then Some 0 else option_map S (col_index c h')
  end.

Definition cell_at (h : list string) (row : list cell) (c : string) : cell :=
  match col_index c h with Some k => nth k row None | None => None end.

(** [df[COLUMNS_TO_KEEP]]: KeyError on a missing column. *)
Definition project (df : Frame) : result Table :=
  match find (fun c => negb (mem c (columns df))) COLUMNS_TO_KEEP with
  | Some c => Err (KeyError c)
  | None =>
      let h := columns df in
      Ok (map (fun '(i, row) =>
                 (i, mkRow (cell_at h row "title") (cell_at h row "abstract")
                           (cell_at h row "publish_time") (cell_at h row "authors")
                           (cell_at h row "journal") (cell_at h row "source_x")
                           (cell_at h row "url"))) (frame_rows df))
  end.

(* ------------------------------------------------------------------ *)
(** * The batch script (Data_Analysis.py) *)

Definition file_path : string := "metadata.csv".
Definition ROWS_TO_LOAD : N := 50000.

Definition manual_stop_words : list string :=
  ["the"; "and"; "to"; "of"; "in"; "is"; "a"; "with"; "for"; "was"; "as";
   "are"; "on"; "this"; "we"; "from"; "or"; "by"; "at"; "that"; "were";
   "an"; "be"; "can"; "has"; "our"; "have"; "results"; "data"; "study";
   "new"; "also"; "which"; "may"; "these"; "more"; "one"; "all"; "research";
   "used"; "paper"; "found"; "two"; "using"; "analysis"; "showed"; "been";
   "could"; "other"; "potential"; "time"; "infection"; "fig"; "figure"].

(** What the script prints on the loading path. *)
Inductive Msg := MLoaded | MNotFound | MUnexpected (e : exn).

Inductive BatchOutcome :=
| BatchDone (out : list Msg) (top_j : list (string * nat)) (years : list (Z * nat))
    (top_w : list (string * nat))
| BatchCrash (out : list Msg) (e : exn).

(** The [try]/[except] around [read_csv] binds [df] only on success; the
    cleaning code that follows runs in every case. *)
Definition batch_run (to_datetime : string -> option Date)
    (sd : forall A : Type, list (A * nat) -> list (A * nat))
    (si : list (Z * nat) -> list (Z * nat)) (fs : FS) : BatchOutcome :=
  let '(out, df) :=
    match read_csv fs file_path ROWS_TO_LOAD OnBadError with
    | Ok df => ([MLoaded], Some df)
    | Err FileNotFoundError => ([MNotFound], None)
    | Err e => ([MUnexpected e], None)
    end in
  match df with
  | None => BatchCrash out (NameError "df")
  | Some df =>
      match project df with
      | Err e => BatchCrash out e
      | Ok t =>
          let c := clean to_datetime (fun y => y) t in
          BatchDone out (top_journals sd 10 c) (publications_over_time sd si c)
                    (top_tokens full_text_batch manual_stop_words 10 c)
      end
  end.

(* ------------------------------------------------------------------ *)
(** * The dashboard (streamlit_app.py) *)

Definition FILE_PATH : string := "metadata.csv".

Definition manual_stop_words_app : list string :=
  manual_stop_words ++ ["covid"; "sars"; "mers"].

(** The page elements the script emits. *)
Inductive Widget :=
| WTitle (s : string)
| WWrite (s : string)
| WError (e : exn)
| WSlider (lo hi : Z)
| WSubheader (n : nat) (a b : Z)
| WHeader (s : string)
| WBar (kv : list (string * nat))
| WLine (kv : list (Z * nat))
| WTable (rows : CTable).

Inductive PageEnd := StStop | PageDone | PageRaised (e : exn).

(** [load_and_clean_data]: a loading error is shown with [st.error] and an
    empty DataFrame is returned; a missing column raises. *)
Definition load_and_clean_data (to_datetime : string -> option Date) (fs : FS)
    (path : string) (nrows : N) : list Widget * result CTable :=
  match read_csv fs path nrows OnBadSkip with
  | Err e => ([WError e], Ok [])
  | Ok df =>
      match project df with
      | Err e => ([], Err e)
      | Ok t => ([], Ok (clean to_datetime wrap32 t))
      end
  end.

(** [@st.cache_data]: results are memoized by argument (exceptions are not),
    and the elements the function emitted are replayed on a hit. *)
Definition Cache := list ((string * N) * (list Widget * CTable)).

Fixpoint cache_lookup (k : string * N) (c : Cache) : option (list Widget * CTable) :=
  match c with
  | [] => None
  | (k', v) :: c' =>
      if String.eqb (fst k') (fst k) && N.eqb (snd k') (snd k) then Some v
      else cache_lookup k c'
  end.

Definition cached_load (to_datetime : string -> option Date) (fs : FS) (c : Cache)
    (path : string) (nrows : N) : list Widget * result CTable * Cache :=
  match cache_lookup (path, nrows) c with
  | Some (w, t) => (w, Ok t, c)
  | None =>
      match load_and_clean_data to_datetime fs path nrows with
      | (w, Ok t) => (w, Ok t, ((path, nrows), (w, t)) :: c)
      | (w, Err e) => (w, Err e, c)
      end
  end.

Definition year_of_row (p : Label * CRow) : Z := c_publication_year (snd p).

(** [st.title] and [st.write] at the top of the page. *)
Definition page_header : list Widget :=
  [WTitle "CORD-19 Research Paper Explorer";
   WWrite "Simple exploration of a sample of COVID-19 research papers, focusing on publication trends and key terms."].

(** A slider handle stays within [[lo, hi]]: a position asked for outside
    is the nearest bound. *)
Definition clamp (lo hi z : Z) : Z := Z.max lo (Z.min z hi).

(** The page below the loading call.  [sel] is the slider position the
    user chose, None leaving it at its default [(min_year, max_year)].
    [st.slider] raises StreamlitAPIException when [min_value] equals
    [max_value]. *)
Definition render (sd : forall A : Type, list (A * nat) -> list (A * nat))
    (si : list (Z * nat) -> list (Z * nat)) (sel : option (Z * Z))
    (w : list Widget) (r : result CTable) : list Widget * PageEnd :=
  let pre := page_header in
  match r with
  | Err e => (pre ++ w, PageRaised e)
  | Ok [] => (pre ++ w, StStop)
  | Ok ((p :: _) as t) =>
      let min_year := fold_left Z.min (map year_of_row t) (year_of_row p) in
      let max_year := fold_left Z.max (map year_of_row t) (year_of_row p) in
      if Z.eqb min_year max_year then (pre ++ w, PageRaised StreamlitAPIException) else
      let '(a, b) :=
        match sel with
        | Some (a, b) => (clamp min_year max_year a, clamp min_year max_year b)
        | None => (min_year, max_year)
        end in
      let f := filter (fun q => (a <=? year_of_row q)%Z && (year_of_row q <=? b)%Z) t in
      let empty := match f with [] => true | _ => false end in
      let p1 := WHeader "1. Top 10 Publishing Journals" ::
                (if empty then [WWrite "No data available for the selected year range."]
                 else [WBar (top_journals sd 10 f)]) in
      let p2 := WHeader "2. Total Publications Over Time" ::
                (if empty then [] else [WLine (publications_over_time sd si f)]) in
      let p3 := WHeader "3. Top 10 Most Frequent Words" ::
                (if empty then []
                 else [WBar (top_tokens full_text_interactive manual_stop_words_app 10 f)]) in
      (pre ++ w ++ [WSlider min_year max_year; WSubheader (length f) a b] ++ p1 ++ p2 ++ p3
           ++ [WHeader "Sample of Cleaned Data"; WTable (firstn 10 f)], PageDone)
  end.

(** One run of the script against the file system [fs] and the cache [c]. *)
Definition page (to_datetime : string -> option Date)
    (sd : forall A : Type, list (A * nat) -> list (A * nat))
    (si : list (Z * nat) -> list (Z * nat))
    (fs : FS) (c : Cache) (sel : option (Z * Z)) : (list Widget * PageEnd) * Cache :=
  let '(w, r, c') := cached_load to_datetime fs c FILE_PATH 50000%N in
  (render sd si sel w r, c').

(* ------------------------------------------------------------------ *)
(** * Concrete instances used by the examples *)

Definition digit (c : ascii) : option Z :=
  let n := nat_of_ascii c in
  if (48 <=? n)%nat && (n <=? 57)%nat then Some (Z.of_nat n - 48)%Z else None.

Definition leap (y : Z) : bool :=
  ((y mod 4 =? 0)%Z && negb (y mod 100 =? 0)%Z) || (y mod 400 =? 0)%Z.

Definition days_in_month (y m : Z) : Z :=
  if (m =? 2)%Z then (if leap y then 29%Z else 28%Z)
  else if existsb (Z.eqb m) [4; 6; 9; 11]%Z then 30%Z else 31%Z.

(** The days a Timestamp can hold: 1677-09-22 to 2262-04-11. *)
Definition in_timestamp_range (y m d : Z) : bool :=
  (((1677 <? y) || ((y =? 1677) && ((9 <? m) || ((m =? 9) && (22 <=? d))))) &&
   ((y <? 2262) || ((y =? 2262) && ((m <? 4) || ((m =? 4) && (d <=? 11))))))%Z.

(** A pandas-like [to_datetime] on strings: an ISO date "YYYY-MM-DD" of
    the Timestamp range is that day, anything else NaT. *)
Definition parse_iso (s : string) : option Date :=
  match list_ascii_of_string s with
  | [y1; y2; y3; y4; s1; m1; m2; s2; d1; d2] =>
      match digit y1, digit y2, digit y3, digit y4, digit m1, digit m2, digit d1, digit d2 with
      | Some y1, Some y2, Some y3, Some y4, Some m1, Some m2, Some d1, Some d2 =>
          let y := (y1 * 1000 + y2 * 100 + y3 * 10 + y4)%Z in
          let m := (m1 * 10 + m2)%Z in
          let d := (d1 * 10 + d2)%Z in
          if Ascii.eqb s1 "-" && Ascii.eqb s2 "-" && (1 <=? m)%Z && (m <=? 12)%Z &&
             (1 <=? d)%Z && (d <=? days_in_month y m)%Z && in_timestamp_range y m d
          then Some (mkDate y m d) else None
      | _, _, _, _, _, _, _, _ => None
      end
  | _ => None
  end.

(** Stable descending sort: one admissible [sort_values]. *)
Definition sd_stable : forall A : Type, list (A * nat) -> list (A * nat) :=
  fun A l => sorted_desc_stable l.

Definition si_insertion (l : list (Z * nat)) : list (Z * nat) :=
  isort (fun x y => (fst x <=? fst y)%Z) l.

(** numpy's portable introsort for [argsort(kind='quicksort')]
    (npysort/quicksort.cpp, [aquicksort_] and [aheapsort_] on int64), the
    path taken where no SIMD argsort is dispatched.  [v] holds the values,
    the array [a] the indices being sorted; pointers are [Z] positions in
    [a].  Every loop is bounded by [length a] rounds, which the sentinels
    of the median-of-three partition and the shrinking ranges keep it
    within. *)
Section Introsort.
Variable v : list nat.

Definition at_ (a : list nat) (i : Z) : nat := nth (Z.to_nat i) a 0.
Definition key (a : list nat) (i : Z) : nat := nth (at_ a i) v 0.
Definition set_ (a : list nat) (i : Z) (x : nat) : list nat := list_set a (Z.to_nat i) x.

(** [INTP_SWAP(a[i], a[j])] *)
Definition swap (a : list nat) (i j : Z) : list nat := set_ (set_ a i (at_ a j)) j (at_ a i).

Definition SMALL_QUICKSORT : Z := 15.

(** [while (less(v[*pi], vp)) ++pi;] *)
Fixpoint scan_up (fuel : nat) (a : list nat) (vp : nat) (pi : Z) : Z :=
  match fuel with
  | 0 => pi
  | S f => if Nat.ltb (key a pi) vp then scan_up f a vp (pi + 1) else pi
  end.

(** [while (less(vp, v[*pj])) --pj;] *)
Fixpoint scan_down (fuel : nat) (a : list nat) (vp : nat) (pj : Z) : Z :=
  match fuel with
  | 0 => pj
  | S f => if Nat.ltb vp (key a pj) then scan_down f a vp (pj - 1) else pj
  end.

(** [for (;;) { do ++pi while ...; do --pj while ...; if (pi >= pj) break;
    INTP_SWAP( *pi, *pj); }] *)
Fixpoint partition_loop (fuel : nat) (a : list nat) (vp : nat) (pi pj : Z) : list nat * Z :=
  match fuel with
  | 0 => (a, pi)
  | S f =>
      let pi := scan_up (length a) a vp (pi + 1) in
      let pj := scan_down (length a) a vp (pj - 1) in
      if (pj <=? pi)%Z then (a, pi) else partition_loop f (swap a pi pj) vp pi pj
  end.

(** Median of three, then the partition of [pl..pr]; returns the pivot's
    final position [pi]. *)
Definition partition (a : list nat) (pl pr : Z) : list nat * Z :=
  let pm := (pl + Z.shiftr (pr - pl) 1)%Z in
  let a := if Nat.ltb (key a pm) (key a pl) then swap a pm pl else a in
  let a := if Nat.ltb (key a pr) (key a pm) then swap a pr pm else a in
  let a := if Nat.ltb (key a pm) (key a pl) then swap a pm pl else a in
  let vp := key a pm in
  let pj := (pr - 1)%Z in
  let a := swap a pm pj in
  let '(a, pi) := partition_loop (length a) a vp pl pj in
  (swap a pi (pr - 1), pi).

(** [while ((pr - pl) > SMALL_QUICKSORT)]: partition, push the larger
    part with [--cdepth], go on with the smaller one. *)
Fixpoint partitions (fuel : nat) (a : list nat) (pl pr cdepth : Z) (stack : list (Z * Z * Z))
    : list nat * Z * Z * list (Z * Z * Z) :=
  match fuel with
  | 0 => (a, pl, pr, stack)
  | S f =>
      if (SMALL_QUICKSORT <? pr - pl)%Z then
        let '(a, pi) := partition a pl pr in
        let cdepth := (cdepth - 1)%Z in
        if (pi - pl <? pr - pi)%Z
        then partitions f a pl (pi - 1) cdepth ((pi + 1, pr, cdepth)%Z :: stack)
        else partitions f a (pi + 1) pr cdepth ((pl, pi - 1, cdepth)%Z :: stack)
      else (a, pl, pr, stack)
  end.

(** [while (pj > pl && less(vp, v[*pk])) *pj-- = *pk--;] *)
Fixpoint ins_shift (fuel : nat) (a : list nat) (pl : Z) (vp : nat) (pj : Z) : list nat * Z :=
  match fuel with
  | 0 => (a, pj)
  | S f =>
      if (pl <? pj)%Z && Nat.ltb vp (key a (pj - 1))
      then ins_shift f (set_ a pj (at_ a (pj - 1))) pl vp (pj - 1)
      else (a, pj)
  end.

(** [for (pi = pl + 1; pi <= pr; ++pi) { vi = *pi; ...; *pj = vi; }] *)
Fixpoint ins_loop (fuel : nat) (a : list nat) (pl pi pr : Z) : list nat :=
  match fuel with
  | 0 => a
  | S f =>
      if (pr <? pi)%Z then a
      else
        let vi := at_ a pi in
        let '(a, pj) := ins_shift (length a) a pl (nth vi v 0) pi in
        ins_loop f (set_ a pj vi) pl (pi + 1) pr
  end.

Definition insertion (a : list nat) (pl pr : Z) : list nat := ins_loop (length a) a pl (pl + 1) pr.

(** The sift loop of [aheapsort_], on the 1-based heap [a[base..base+n-1]]. *)
Fixpoint sift (fuel : nat) (a : list nat) (base n : Z) (tmp : nat) (i j : Z) : list nat * Z :=
  match fuel with
  | 0 => (a, i)
  | S f =>
      if (n <? j)%Z then (a, i)
      else
        let j := if (j <? n)%Z && Nat.ltb (key a (base + j - 1)) (key a (base + j))
                 then (j + 1)%Z else j in
        if Nat.ltb (nth tmp v 0) (key a (base + j - 1))
        then sift f (set_ a (base + i - 1) (at_ a (base + j - 1))) base n tmp j (j + j)
        else (a, i)
  end.

Fixpoint heapify (fuel : nat) (a : list nat) (base n l : Z) : list nat :=
  match fuel with
  | 0 => a
  | S f =>
      if (l <=? 0)%Z then a
      else
        let tmp := at_ a (base + l - 1) in
        let '(a, i) := sift (length a) a base n tmp l (2 * l) in
        heapify f (set_ a (base + i - 1) tmp) base n (l - 1)
  end.

Fixpoint sortdown (fuel : nat) (a : list nat) (base n : Z) : list nat :=
  match fuel with
  | 0 => a
  | S f =>
      if (n <=? 1)%Z then a
      else
        let tmp := at_ a (base + n - 1) in
        let a := set_ a (base + n - 1) (at_ a base) in
        let n := (n - 1)%Z in
        let '(a, i) := sift (length a) a base n tmp 1 2 in
        sortdown f (set_ a (base + i - 1) tmp) base n
  end.

Definition aheapsort (a : list nat) (base n : Z) : list nat :=
  sortdown (length a) (heapify (length a) a base n (Z.shiftr n 1)) base n.

(** The [for (;;)] loop: heapsort when the depth budget is spent, else
    partition and finish the small range by insertion, then pop. *)
Fixpoint qs_loop (fuel : nat) (a : list nat) (pl pr cdepth : Z) (stack : list (Z * Z * Z))
    : list nat :=
  match fuel with
  | 0 => a
  | S f =>
      let '(a, stack) :=
        if (cdepth <? 0)%Z then (aheapsort a pl (pr - pl + 1), stack)
        else
          let '(a, pl, pr, stack) := partitions (length a) a pl pr cdepth stack in
          (insertion a pl pr, stack) in
      match stack with
      | [] => a
      | (pl, pr, cdepth) :: stack => qs_loop f a pl pr cdepth stack
      end
  end.

(** [npy_get_msb]: the position of the highest set bit. *)
Definition npy_get_msb (n : nat) : Z := Z.of_nat (Nat.log2 n).

Definition aquicksort (tosort : list nat) : list nat :=
  let num := length tosort in
  qs_loop (S (2 * num)) tosort 0 (Z.of_nat num - 1) (2 * npy_get_msb num) [].

End Introsort.

(** [np.argsort(values, kind='quicksort')]: the indices [0..n-1] sorted. *)
Definition argsort (vals : list nat) : list nat := aquicksort vals (seq 0 (length vals)).

(** pandas' [nargsort(items, kind='quicksort', ascending=False)] without
    NaN: [non_nans = items[::-1]], [non_nan_idx = idx[::-1]],
    [indexer = non_nan_idx[non_nans.argsort(kind)]], then [indexer[::-1]]. *)
Definition nargsort_desc (items : list nat) : list nat :=
  let non_nans := rev items in
  let non_nan_idx := rev (seq 0 (length items)) in
  rev (map (fun k => nth k non_nan_idx 0) (argsort non_nans)).

(** [Series.sort_values(ascending=False)] on counts: the entries taken in
    the order [nargsort] gives. *)
Definition sd_numpy : forall A : Type, list (A * nat) -> list (A * nat) :=
  fun A l =>
    match l with
    | [] => []
    | d :: _ => map (fun k => nth k l d) (nargsort_desc (map snd l))
    end.

(** The spec's TopTokens scenario as one cleaned row. *)
Definition virus_row : CRow :=
  mkCRow (Some "The virus spreads.") (Some "THE VIRUS IS NEW.") (mkDate 2020 1 1)
         (Some "Unknown Author") (Some "Unknown Journal") None None 2020.

(** A cleaned row with the given journal and year. *)
Definition jrow (j : string) (y : Z) : CRow :=
  mkCRow (Some "Title") (Some "Abstract") (mkDate y 1 1) (Some "Unknown Author")
         (Some j) None None y.

(** Two journals with one paper each, "A" counted first. *)
Definition two_journals : CTable :=
  [(RangeLabel 0, jrow "A" 2020); (RangeLabel 1, jrow "B" 2021)].

(** Seventeen journals "J0" .. "J16" with one paper each, in that order. *)
Definition one_each : CTable :=
  map (fun k => (RangeLabel k, jrow ("J" ++ string_of_nat k)%string 2020)) (seq 0 17).

(** A file system holding [metadata.csv]: the header [COLUMNS_TO_KEEP] and
    the given data lines. *)
Definition single_file (lines : list (list string)) : FS :=
  fun p => if String.eqb p "metadata.csv" then Some (Csv (COLUMNS_TO_KEEP :: lines)) else None.


(** A metadata file with papers from 2000 and 2010 only. *)
Definition gap_source : FS :=
  single_file
    [["Paper one"; "alpha beta"; "2000-01-01"; ""; "J1"; "PMC"; "u1"];
     ["Paper two"; "gamma delta"; "2010-01-01"; "Bob"; ""; "PMC"; "u2"]].

(** A metadata file whose first abstract is the string "NaN" and whose last
    line stops after the publish time. *)
Definition na_source : FS :=
  single_file
    [["Paper one"; "NaN"; "2020-01-01"; "Ann"; "J1"; "PMC"; "u1"];
     ["Paper two"; "Second abstract"; "2021-01-01"; "null"; "J2"; "PMC"; "u2"];
     ["Paper three"; "Third abstract"; "2022-01-01"]].

(** The header of a metadata file without a [journal] column. *)
Definition no_journal_header : list string :=
  ["title"; "abstract"; "publish_time"; "authors"; "source_x"; "url"].

Definition no_journal_lines : list (list string) :=
  [["Paper one"; "First abstract"; "2020-01-01"; "Ann"; "PMC"; "u1"]].

Definition no_journal_source : FS :=
  fun p => if String.eqb p "metadata.csv" then Some (Csv (no_journal_header :: no_journal_lines))
           else None.

(* ================================================================== *)
(** * Sorting lemmas *)

Lemma insert_by_perm {T} (le : T -> T -> bool) x l :
  Permutation (x :: l) (insert_by le x l).
Proof.
  induction l as [|y l IH]; simpl; [reflexivity|].
  destruct (le x y); [reflexivity|].
  rewrite perm_swap. now constructor.
Qed.

Lemma isort_perm {T} (le : T -> T -> bool) l : Permutation l (isort le l).
Proof.
  induction l as [|x l IH]; simpl; [reflexivity|].
  rewrite <- insert_by_perm. now constructor.
Qed.

(** Inserting [x] keeps a list [R]-sorted when [le] decides [R] against
    every element of the list. *)
Lemma insert_by_sorted {T} (le : T -> T -> bool) (R : T -> T -> Prop) x l :
  (forall y, In y l -> (le x y = true -> R x y) /\ (le x y = false -> R y x)) ->
  Sorted R l -> Sorted R (insert_by le x l).
Proof.
  induction l as [|y l IH]; intros Hle Hs; simpl.
  - repeat constructor.
  - destruct (le x y) eqn:E.
    + constructor; [exact Hs|]. constructor. apply (proj1 (Hle y (or_introl eq_refl))), E.
    + apply Sorted_inv in Hs as [Hs Hhd].
      constructor.
      * apply IH; [intros z Hz; apply Hle; now right | exact Hs].
      * destruct l as [|z l]; simpl.
        -- constructor. apply (proj2 (Hle y (or_introl eq_refl))), E.
        -- destruct (le x z) eqn:E'.
           ++ constructor. apply (proj2 (Hle y (or_introl eq_refl))), E.
           ++ inversion Hhd; subst. now constructor.
Qed.

Lemma isort_sorted {T} (le : T -> T -> bool) (R : T -> T -> Prop) :
  (forall x y, (le x y = true -> R x y) /\ (le x y = false -> R y x)) ->
  forall l, Sorted R (isort le l).
Proof.
  intros Hle l. induction l as [|x l IH]; simpl; [constructor|].
  apply insert_by_sorted; [intros y _; apply Hle | exact IH].
Qed.

Lemma Sorted_firstn {T} (R : T -> T -> Prop) n l :
  Sorted R l -> Sorted R (firstn n l).
Proof.
  revert l. induction n as [|n IH]; intros l Hs; simpl; [constructor|].
  destruct l as [|x l]; [constructor|].
  apply Sorted_inv in Hs as [Hs Hhd]. constructor; [now apply IH|].
  destruct n, l; simpl; try constructor. now inversion Hhd.
Qed.

Lemma in_firstn {T} n l (x : T) : In x (firstn n l) -> In x l.
Proof.
  intro H. rewrite <- (firstn_skipn n l). apply in_or_app. now left.
Qed.

Lemma StronglySorted_firstn {T} (R : T -> T -> Prop) n l :
  StronglySorted R l -> StronglySorted R (firstn n l).
Proof.
  revert l. induction n as [|n IH]; intros l Hs; simpl; [constructor|].
  destruct l as [|x l]; [constructor|].
  apply StronglySorted_inv in Hs as [Hs Hf]. constructor; [now apply IH|].
  apply Forall_forall. intros y Hy. apply (proj1 (Forall_forall _ _) Hf).
  eapply in_firstn; exact Hy.
Qed.

Lemma StronglySorted_map {T U} (f : T -> U) (R : U -> U -> Prop) l :
  StronglySorted R (map f l) <-> StronglySorted (fun a b => R (f a) (f b)) l.
Proof.
  induction l as [|x l IH]; simpl; split; intro H; try constructor;
    apply StronglySorted_inv in H as [H1 H2].
  - now apply IH.
  - rewrite Forall_map in H2. exact H2.
  - now apply IH.
  - rewrite Forall_map. exact H2.
Qed.

Lemma StronglySorted_weaken_in {T} (R R' : T -> T -> Prop) l :
  (forall a b, In a l -> In b l -> R a b -> R' a b) ->
  StronglySorted R l -> StronglySorted R' l.
Proof.
  induction l as [|x l IH]; intros Himp Hs; [constructor|].
  apply StronglySorted_inv in Hs as [Hs Hf]. constructor.
  - apply IH; [intros a b Ha Hb; apply Himp; now right | exact Hs].
  - rewrite Forall_forall in *. intros y Hy.
    apply Himp; [now left | now right | now apply Hf].
Qed.

Lemma StronglySorted_snoc {T} (R : T -> T -> Prop) l x :
  StronglySorted R l -> (forall a, In a l -> R a x) -> StronglySorted R (l ++ [x]).
Proof.
  induction l as [|y l IH]; intros Hs Hx; simpl.
  - repeat constructor.
  - apply StronglySorted_inv in Hs as [Hs Hf]. constructor.
    + apply IH; [exact Hs | intros a Ha; apply Hx; now right].
    + apply Forall_app. split; [exact Hf|]. constructor; [apply Hx; now left | constructor].
Qed.

Lemma StronglySorted_NoDup {T} (f : T -> nat) l :
  StronglySorted (fun a b => f a < f b) l -> NoDup l.
Proof.
  induction l as [|x l IH]; intros Hs; [constructor|].
  apply StronglySorted_inv in Hs as [Hs Hf]. constructor; [|now apply IH].
  intro Hin. rewrite Forall_forall in Hf. specialize (Hf x Hin). lia.
Qed.

(* ================================================================== *)
(** * Counting lemmas *)

Section CounterFacts.
Context {A : Type} (dec : forall x y : A, {x = y} + {x <> y}).

Lemma index_of_app_in k p s :
  In k p -> index_of dec k (p ++ s) = index_of dec k p.
Proof.
  induction p as [|x p IH]; intros H; [destruct H|]; simpl.
  destruct (dec x k); [reflexivity|].
  destruct H as [H|H]; [congruence|]. now rewrite IH.
Qed.

Lemma index_of_lt k p : In k p -> index_of dec k p < length p.
Proof.
  induction p as [|x p IH]; intros H; [destruct H|]; simpl.
  destruct (dec x k); [lia|].
  destruct H as [H|H]; [congruence|]. specialize (IH H). lia.
Qed.

Lemma index_of_app_notin w p s :
  ~ In w p -> index_of dec w (p ++ w :: s) = length p.
Proof.
  induction p as [|x p IH]; intros H; simpl.
  - destruct (dec w w); congruence.
  - destruct (dec x w); [exfalso; apply H; now left|].
    rewrite IH; [reflexivity | intro; apply H; now right].
Qed.

Lemma counter_add_keys_in c w :
  In w (map fst c) -> map fst (counter_add dec c w) = map fst c.
Proof.
  induction c as [|[k n] c IH]; intros H; [destruct H|]; simpl.
  destruct (dec k w); simpl; [reflexivity|].
  destruct H as [H|H]; [simpl in H; congruence|]. now rewrite IH.
Qed.

Lemma counter_add_keys_notin c w :
  ~ In w (map fst c) -> map fst (counter_add dec c w) = map fst c ++ [w].
Proof.
  induction c as [|[k n] c IH]; intros H; simpl; [reflexivity|].
  destruct (dec k w); [exfalso; apply H; now left|]. simpl.
  rewrite IH; [reflexivity | intro; apply H; now right].
Qed.

Lemma counter_add_sum c w :
  list_sum (map snd (counter_add dec c w)) = S (list_sum (map snd c)).
Proof.
  induction c as [|[k n] c IH]; simpl; [reflexivity|].
  destruct (dec k w); simpl; [reflexivity|]. rewrite IH. lia.
Qed.

Lemma counter_inv_step p c w :
  counter_inv dec p c -> counter_inv dec (p ++ [w]) (counter_add dec c w).
Proof.
  intros (Hk & Hs & Hsum). unfold counter_inv.
  rewrite length_app, counter_add_sum, Hsum. simpl.
  destruct (in_dec dec w (map fst c)) as [Hin|Hnin].
  - rewrite (counter_add_keys_in _ _ Hin). split; [|split; [|lia]].
    + intro k. rewrite Hk, in_app_iff. split; [now left|].
      intros [H|[H|[]]]; [exact H | subst; now apply Hk].
    + eapply StronglySorted_weaken_in; [|exact Hs].
      intros a b Ha Hb. apply Hk in Ha, Hb.
      rewrite !index_of_app_in by assumption. auto.
  - rewrite (counter_add_keys_notin _ _ Hnin). split; [|split; [|lia]].
    + intro k. rewrite !in_app_iff, Hk. simpl. intuition.
    + assert (Hw : ~ In w p) by (intro; apply Hnin, Hk; assumption).
      apply StronglySorted_snoc.
      * eapply StronglySorted_weaken_in; [|exact Hs].
        intros a b Ha Hb. apply Hk in Ha, Hb.
        rewrite !index_of_app_in by assumption. auto.
      * intros a Ha. apply Hk in Ha.
        rewrite index_of_app_in, index_of_app_notin by assumption.
        now apply index_of_lt.
Qed.

Lemma counter_inv_fold s : forall p c,
  counter_inv dec p c -> counter_inv dec (p ++ s) (fold_left (counter_add dec) s c).
Proof.
  induction s as [|w s IH]; intros p c H; simpl.
  - now rewrite app_nil_r.
  - replace (p ++ w :: s) with ((p ++ [w]) ++ s) by now rewrite <- app_assoc.
    apply IH, counter_inv_step, H.
Qed.

Lemma counter_spec ws : counter_inv dec ws (counter dec ws).
Proof.
  apply (counter_inv_fold ws [] []).
  split; [|split]; simpl; [tauto | constructor | reflexivity].
Qed.

Lemma counter_keys ws k : In k (map fst (counter dec ws)) <-> In k ws.
Proof. apply (counter_spec ws). Qed.

Lemma counter_sum ws : list_sum (map snd (counter dec ws)) = length ws.
Proof. apply (counter_spec ws). Qed.

Lemma counter_first_order ws :
  StronglySorted (fun a b => index_of dec (fst a) ws < index_of dec (fst b) ws)
                 (counter dec ws).
Proof.
  apply (StronglySorted_map fst (fun a b => index_of dec a ws < index_of dec b ws)).
  apply (counter_spec ws).
Qed.

Lemma counter_keys_NoDup ws : NoDup (map fst (counter dec ws)).
Proof.
  apply (StronglySorted_NoDup (fun a => index_of dec a ws)). apply (counter_spec ws).
Qed.
End CounterFacts.

(* ================================================================== *)
(** * Word frequencies (TopTokens) *)

(** [sorted(..., reverse=True)] orders by count, and among equal counts
    keeps the input order, here measured by a rank [rk]. *)
Lemma sorted_desc_stable_order {A} (rk : A * nat -> nat) (l : list (A * nat)) :
  StronglySorted (fun a b => rk a < rk b) l ->
  StronglySorted (fun a b => snd b < snd a \/ (snd a = snd b /\ rk a < rk b))
                 (sorted_desc_stable l).
Proof.
  intros Hs. apply Sorted_StronglySorted.
  { intros x y z Hxy Hyz. lia. }
  induction l as [|x l IH]; [constructor|].
  apply StronglySorted_inv in Hs as [Hs Hf].
  unfold sorted_desc_stable. simpl. apply insert_by_sorted; [|exact (IH Hs)].
  intros y Hy. apply Permutation_in with (l' := l) in Hy; [|symmetry; apply isort_perm].
  rewrite Forall_forall in Hf. specialize (Hf y Hy).
  split; intro E; [apply Nat.leb_le in E | apply Nat.leb_gt in E]; lia.
Qed.

Lemma most_common_in {A} n (c : list (A * nat)) x : In x (most_common n c) -> In x c.
Proof.
  intro H. apply in_firstn in H.
  apply Permutation_in with (l := sorted_desc_stable c); [symmetry; apply isort_perm | exact H].
Qed.

Lemma mem_false_not_in w ws : mem w ws = false -> ~ In w ws.
Proof.
  intros H Hin. unfold mem in H.
  assert (existsb (String.eqb w) ws = true) by
    (apply existsb_exists; exists w; split; [exact Hin | apply String.eqb_refl]).
  congruence.
Qed.

Lemma all_words_long w texts : In w (all_words texts) -> 3 <= String.length w.
Proof.
  unfold all_words. rewrite in_flat_map. intros [[s|] [_ Hw]]; [|destruct Hw].
  unfold tokenize_and_clean in Hw. apply filter_In in Hw as [_ Hw].
  apply Nat.ltb_lt in Hw. lia.
Qed.

Lemma top_texts_word stop n texts w k :
  In (w, k) (top_texts stop n texts) ->
  3 <= String.length w /\ ~ In w stop.
Proof.
  unfold top_texts. intro H. apply most_common_in in H.
  assert (Hw : In w (filtered_words stop (all_words texts))).
  { apply (counter_keys string_dec). apply in_map_iff. now exists (w, k). }
  unfold filtered_words in Hw. apply filter_In in Hw as [Hw Hm].
  split; [now apply all_words_long with texts | apply mem_false_not_in; now destruct (mem w stop)].
Qed.

(** C2: TopTokens returns at most N entries, no token shorter than three
    letters and no stopword, ordered by count descending with ties in the
    order of first occurrence in the word stream; on the spec's text it
    gives [("virus", 2); ("spreads", 1)].  Any [full_text] is allowed, so
    this covers both the batch and the dashboard concatenation. *)
Theorem top_tokens_spec (full_text : CRow -> cell) (stop : list string) (n : nat) (t : CTable) :
  let ws := filtered_words stop (all_words (map (fun p => full_text (snd p)) t)) in
  let res := top_tokens full_text stop n t in
  length res <= n /\
  (forall w k, In (w, k) res -> 3 <= String.length w /\ ~ In w stop) /\
  StronglySorted (fun a b => snd b < snd a \/
                   (snd a = snd b /\ index_of string_dec (fst a) ws < index_of string_dec (fst b) ws))
                 res /\
  top_texts ["the"; "is"; "new"] 2 [Some "The virus spreads. THE VIRUS IS NEW."]
    = [("virus", 2); ("spreads", 1)] /\
  top_tokens full_text_batch ["the"; "is"; "new"] 2 [(RangeLabel 0, virus_row)]
    = [("virus", 2); ("spreads", 1)].
Proof.
  intros ws res. split; [|split; [|split; [|split]]].
  - apply firstn_le_length.
  - intros w k H. eapply top_texts_word. exact H.
  - apply StronglySorted_firstn, sorted_desc_stable_order, counter_first_order.
  - vm_compute. reflexivity.
  - vm_compute. reflexivity.
Qed.

(* ================================================================== *)
(** * Admissible library sorts *)

Lemma sd_stable_contract : sort_values_contract sd_stable.
Proof.
  intros A l. split; [apply isort_perm|].
  apply isort_sorted. intros x y. split; intro E;
    [apply Nat.leb_le in E | apply Nat.leb_gt in E]; lia.
Qed.

Lemma si_insertion_contract : sort_index_contract si_insertion.
Proof.
  intro l. split; [apply isort_perm|].
  apply isort_sorted. intros x y. split; intro E;
    [apply Z.leb_le in E | apply Z.leb_gt in E]; lia.
Qed.

(* ================================================================== *)
(** * Top journals (TopCategorical) *)

Lemma journals_counted_not_sentinel t k :
  In k (journals_counted t) -> k <> "Unknown Journal".
Proof.
  unfold journals_counted, dropna_values. rewrite in_flat_map.
  intros [c [Hc Hk]]. apply in_map_iff in Hc as [p [Hp Hin]].
  apply filter_In in Hin as [_ Hf]. subst c.
  destruct (c_journal (snd p)) as [s|]; simpl in *; [|destruct Hk].
  destruct Hk as [Hk|[]]; subst s. intro E. subst k.
  simpl in Hf. discriminate Hf.
Qed.

(** C3 (amended): TopCategorical over the journal field returns at most N
    pairs, never the sentinel "Unknown Journal", ordered by count
    descending; the order among equal counts is whatever pandas'
    [sort_values] returns, so the theorem holds for every sort meeting its
    contract. *)
Theorem top_journals_spec (sd : forall A : Type, list (A * nat) -> list (A * nat)) :
  sort_values_contract sd ->
  forall (n : nat) (t : CTable),
    let res := top_journals sd n t in
    length res <= n /\
    (forall k c, In (k, c) res -> k <> "Unknown Journal") /\
    Sorted (fun a b => snd b <= snd a) res.
Proof.
  intros Hsd n t res. destruct (Hsd string (counter string_dec (journals_counted t))) as [Hp Hs].
  split; [|split].
  - apply firstn_le_length.
  - intros k c H. apply in_firstn in H. unfold value_counts in H.
    apply Permutation_in with (l' := counter string_dec (journals_counted t)) in H;
      [|symmetry; exact Hp].
    apply journals_counted_not_sentinel with t.
    apply (counter_keys string_dec). apply in_map_iff. now exists (k, c).
  - apply Sorted_firstn. exact Hs.
Qed.

Lemma top_journals_spec_witness :
  sort_values_contract sd_stable /\
  top_journals sd_stable 10 two_journals = [("A", 1); ("B", 1)] /\
  length (top_journals sd_stable 10 two_journals) <= 10.
Proof.
  split; [exact sd_stable_contract|]. split; [vm_compute; reflexivity|].
  apply (top_journals_spec sd_stable sd_stable_contract 10 two_journals).
Defined.

(** C3, as stated, is false: pandas' [sort_values(ascending=False)] goes
    through [nargsort] and numpy's quicksort, which is not stable.  On
    seventeen journals with one paper each, counted in the order "J0" ..
    "J16", the ten returned are J0, J9, J15, J14, J13, J12, J11, J10, J8,
    J1: "J15" comes before "J14" although "J14" is counted first. *)
Lemma top_journals_ties_counterexample :
  ~ (forall (n : nat) (t : CTable),
       StronglySorted
         (fun a b => snd b < snd a \/
            (snd a = snd b /\
             index_of string_dec (fst a) (journals_counted t)
               < index_of string_dec (fst b) (journals_counted t)))
         (top_journals sd_numpy n t)).
Proof.
  intro H. specialize (H 10 one_each).
  assert (E : top_journals sd_numpy 10 one_each =
              [("J0", 1); ("J9", 1); ("J15", 1); ("J14", 1); ("J13", 1);
               ("J12", 1); ("J11", 1); ("J10", 1); ("J8", 1); ("J1", 1)])
    by (vm_compute; reflexivity).
  rewrite E in H.
  apply StronglySorted_inv in H as [H _]. apply StronglySorted_inv in H as [H _].
  apply StronglySorted_inv in H as [_ H].
  inversion H as [|? ? Hab _]; subst. vm_compute in Hab. lia.
Qed.

(* ================================================================== *)
(** * Publications per year (YearlySeries) *)

Lemma StronglySorted_le_lt (l : list Z) :
  StronglySorted Z.le l -> NoDup l -> StronglySorted Z.lt l.
Proof.
  induction l as [|x l IH]; intros Hs Hn; [constructor|].
  apply StronglySorted_inv in Hs as [Hs Hf]. inversion Hn as [|? ? Hx Hn']; subst.
  constructor; [now apply IH|].
  rewrite Forall_forall in *. intros y Hy. specialize (Hf y Hy).
  assert (x <> y) by (intro; subst; contradiction). lia.
Qed.

(** C4: the years of YearlySeries are exactly the publication years of the
    table, strictly ascending (so no year twice and no gap filled), and the
    counts add up to the number of rows. *)
Theorem publications_over_time_spec (sd : forall A : Type, list (A * nat) -> list (A * nat))
    (si : list (Z * nat) -> list (Z * nat)) :
  sort_values_contract sd -> sort_index_contract si ->
  forall t : CTable,
    let ys := publications_over_time sd si t in
    (forall y, In y (map fst ys) <-> In y (map year_of_row t)) /\
    StronglySorted Z.lt (map fst ys) /\
    list_sum (map snd ys) = length t.
Proof.
  intros Hsd Hsi t ys.
  set (c := counter Z.eq_dec (map year_of_row t)).
  destruct (Hsd Z c) as [P1 _].
  destruct (Hsi (sd Z c)) as [P2 Hs].
  assert (P : Permutation c ys) by (unfold ys, publications_over_time, value_counts; fold c;
                                    eapply perm_trans; [exact P1 | exact P2]).
  split; [|split].
  - intro y. rewrite <- (counter_keys Z.eq_dec (map year_of_row t) y). fold c.
    split; apply Permutation_in; [symmetry|]; apply Permutation_map; exact P.
  - apply StronglySorted_le_lt.
    + apply (StronglySorted_map fst Z.le). apply Sorted_StronglySorted; [intros ? ? ?; lia|].
      exact Hs.
    + apply Permutation_NoDup with (l := map fst c); [apply Permutation_map, P|].
      apply counter_keys_NoDup.
  - rewrite <- (Permutation_list_sum (Permutation_map snd P)).
    unfold c. rewrite counter_sum. apply length_map.
Qed.

Lemma publications_over_time_spec_witness :
  publications_over_time sd_stable si_insertion two_journals = [(2020%Z, 1); (2021%Z, 1)] /\
  list_sum (map snd (publications_over_time sd_stable si_insertion two_journals))
    = length two_journals.
Proof.
  split; [vm_compute; reflexivity|].
  apply (publications_over_time_spec sd_stable si_insertion
           sd_stable_contract si_insertion_contract two_journals).
Defined.

(* ================================================================== *)
(** * Cleaner *)

Lemma step_drop_nat_in t i r d :
  In (i, r, d) (step_drop_nat t) <-> In (i, r) t /\ d_publish_time r = Some d.
Proof.
  induction t as [|[j q] t IH]; simpl; [tauto|].
  destruct (d_publish_time q) as [e|] eqn:E; simpl; rewrite IH.
  - split.
    + intros [H|H]; [injection H as <- <- <-; auto | tauto].
    + intros [[H|H] Hd]; [injection H as <- <-; left; congruence | auto].
  - split.
    + tauto.
    + intros [[H|H] Hd]; [injection H as <- <-; congruence | auto].
Qed.

(** Where a cleaned row comes from, for either way of deriving the year. *)
Lemma clean_origin to_datetime year_of t i c :
  In (i, c) (clean to_datetime year_of t) ->
  exists r s,
    In (i, r) t /\ publish_time r = Some s /\ to_datetime s = Some (c_publish_time c) /\
    c_abstract c = abstract r /\ c_abstract c <> None /\
    c_publication_year c = year_of (year (c_publish_time c)) /\
    c_authors c = fillna "Unknown Author" (authors r) /\
    c_journal c = fillna "Unknown Journal" (journal r).
Proof.
  unfold clean, step_year. rewrite in_map_iff.
  intros [[[j q] d] [Hc Hin]]. injection Hc as <- <-.
  apply step_drop_nat_in in Hin as [Hin Hd].
  unfold step_to_datetime in Hin. apply in_map_iff in Hin as [[j' q'] [Hq Hin]].
  injection Hq as <- <-. simpl in Hd.
  unfold step_drop_abstract in Hin. apply filter_In in Hin as [Hin Ha].
  unfold step_fill in Hin. apply in_map_iff in Hin as [[k r] [Hr Hin]].
  injection Hr as <- <-. simpl in *.
  destruct (publish_time r) as [s|] eqn:Hp; [|discriminate Hd].
  exists r, s. simpl. repeat split; auto.
  destruct (abstract r); [discriminate | discriminate Ha].
Qed.

Lemma fillna_cases v c :
  (c <> None /\ fillna v c = c) \/ (c = None /\ fillna v c = Some v).
Proof. destruct c; simpl; [left; split; [discriminate | reflexivity] | right; auto]. Qed.

Lemma wrap32_small z : (- 2 ^ 31 <= z < 2 ^ 31)%Z -> wrap32 z = z.
Proof.
  intro H. unfold wrap32. rewrite Z.mod_small by lia. lia.
Qed.

(** C1: every row the Cleaner keeps has its abstract, its parsed date with
    the year of that date as [publication_year], and authors/journal either
    original or the sentinels.  For the dashboard ([astype('int32')]) this
    uses that pandas' Timestamps lie within 1677..2262. *)
Theorem clean_invariants (to_datetime : string -> option Date) (t : Table) :
  (forall i c, In (i, c) (clean to_datetime (fun y => y) t) ->
               retained_record to_datetime t i c) /\
  ((forall s d, to_datetime s = Some d -> (1677 <= year d <= 2262)%Z) ->
   forall i c, In (i, c) (clean to_datetime wrap32 t) ->
               retained_record to_datetime t i c).
Proof.
  assert (Hfill : forall i c, In (i, c) (clean to_datetime (fun y => y) t) \/
                             In (i, c) (clean to_datetime wrap32 t) ->
     exists r s,
       In (i, r) t /\ publish_time r = Some s /\ to_datetime s = Some (c_publish_time c) /\
       c_abstract c = abstract r /\ c_abstract c <> None /\
       ((authors r <> None /\ c_authors c = authors r) \/
        (authors r = None /\ c_authors c = Some "Unknown Author")) /\
       ((journal r <> None /\ c_journal c = journal r) \/
        (journal r = None /\ c_journal c = Some "Unknown Journal"))).
  { intros i c [H|H]; destruct (clean_origin _ _ _ _ _ H) as (r & s & Hin & Hp & Hd & Ha & Hna & _ & Hau & Hj);
      exists r, s; do 5 (split; [assumption|]); rewrite Hau, Hj;
      split; apply fillna_cases. }
  split; [|intros Hrange]; intros i c H.
  - destruct (Hfill i c (or_introl H)) as (r & s & Hin & Hp & Hd & Ha & Hna & Hau & Hj).
    destruct (clean_origin _ _ _ _ _ H) as (_ & _ & _ & _ & _ & _ & _ & Hy & _).
    exists r, s. do 5 (split; [assumption|]). split; [exact Hy|]. split; assumption.
  - destruct (Hfill i c (or_intror H)) as (r & s & Hin & Hp & Hd & Ha & Hna & Hau & Hj).
    destruct (clean_origin _ _ _ _ _ H) as (r' & s' & Hin' & Hp' & Hd' & _ & _ & Hy & _).
    exists r, s. do 5 (split; [assumption|]). split; [|split; assumption].
    rewrite Hy. apply wrap32_small. specialize (Hrange s' _ Hd'). lia.
Qed.

Lemma parse_iso_range s d : parse_iso s = Some d -> (1677 <= year d <= 2262)%Z.
Proof.
  unfold parse_iso.
  destruct (list_ascii_of_string s)
    as [|y1 [|y2 [|y3 [|y4 [|s1 [|m1 [|m2 [|s2 [|d1 [|d2 [|? ?]]]]]]]]]]]; try discriminate.
  destruct (digit y1), (digit y2), (digit y3), (digit y4), (digit m1), (digit m2),
    (digit d1), (digit d2); try discriminate.
  match goal with |- context [if ?cond then _ else _] => destruct cond eqn:E end;
    [|discriminate].
  intro H. injection H as <-. simpl.
  apply andb_true_iff in E as [_ E]. unfold in_timestamp_range in E.
  repeat rewrite ?andb_true_iff, ?orb_true_iff, ?Z.ltb_lt, ?Z.eqb_eq, ?Z.leb_le in E.
  lia.
Qed.

(** The sample Table of the spec's Cleaner scenario: a valid row, one
    without abstract, one with an unparseable date. *)
Lemma clean_invariants_witness :
  let t := [(RangeLabel 0, mkRow (Some "T") (Some "A") (Some "2020-01-01") None (Some "J") None None);
            (RangeLabel 1, mkRow (Some "T") None (Some "2020-01-01") (Some "X") None None None);
            (RangeLabel 2, mkRow (Some "T") (Some "A") (Some "soon") (Some "X") None None None)] in
  map fst (clean parse_iso wrap32 t) = [RangeLabel 0] /\
  (forall i c, In (i, c) (clean parse_iso wrap32 t) -> retained_record parse_iso t i c).
Proof.
  intro t. split; [vm_compute; reflexivity|].
  apply (proj2 (clean_invariants parse_iso t)). exact parse_iso_range.
Defined.

Lemma subseq_refl {T} (l : list T) : subseq l l.
Proof. induction l; constructor; assumption. Qed.

Lemma subseq_trans {T} (l1 l2 l3 : list T) : subseq l1 l2 -> subseq l2 l3 -> subseq l1 l3.
Proof.
  intros H12 H23. revert l1 H12. induction H23 as [|x l2 l3 H IH|x l2 l3 H IH]; intros l1 H12.
  - exact H12.
  - constructor. now apply IH.
  - inversion H12; subst; [constructor | constructor]; now apply IH.
Qed.

Lemma subseq_length {T} (l1 l2 : list T) : subseq l1 l2 -> length l1 <= length l2.
Proof. induction 1; simpl; lia. Qed.

Lemma step_fill_labels t : map fst (step_fill t) = map fst t.
Proof. induction t as [|[i r] t IH]; simpl; congruence. Qed.

Lemma step_drop_abstract_labels t : subseq (map fst (step_drop_abstract t)) (map fst t).
Proof.
  induction t as [|[i r] t IH]; simpl; [constructor|].
  destruct (abstract r); simpl; constructor; exact IH.
Qed.

Lemma step_to_datetime_labels p t : map fst (step_to_datetime p t) = map fst t.
Proof. induction t as [|[i r] t IH]; simpl; congruence. Qed.

Lemma step_drop_nat_labels t :
  subseq (map (fun x => fst (fst x)) (step_drop_nat t)) (map fst t).
Proof.
  induction t as [|[i r] t IH]; simpl; [constructor|].
  destruct (d_publish_time r); simpl; constructor; exact IH.
Qed.

Lemma step_year_labels y t : map fst (step_year y t) = map (fun x => fst (fst x)) t.
Proof. induction t as [|[[i r] d] t IH]; simpl; congruence. Qed.

(** C8: each cleaning step keeps or drops rows, never adds any: the labels
    of the result are a sub-sequence of the input's, every kept row comes
    from an input row with its label, and the row count never grows. *)
Theorem clean_shrinks (to_datetime : string -> option Date) (year_of : Z -> Z) (t : Table) :
  let t1 := step_fill t in
  let t2 := step_drop_abstract t1 in
  let t3 := step_to_datetime to_datetime t2 in
  let t4 := step_drop_nat t3 in
  let t5 := step_year year_of t4 in
  length t1 <= length t /\ length t2 <= length t1 /\ length t3 <= length t2 /\
  length t4 <= length t3 /\ length t5 <= length t4 /\
  t5 = clean to_datetime year_of t /\
  subseq (map fst (clean to_datetime year_of t)) (map fst t) /\
  (forall i c, In (i, c) (clean to_datetime year_of t) -> exists r, In (i, r) t) /\
  length (clean to_datetime year_of t) <= length t.
Proof.
  intros t1 t2 t3 t4 t5.
  assert (S1 : map fst t1 = map fst t) by apply step_fill_labels.
  assert (S2 : subseq (map fst t2) (map fst t1)) by apply step_drop_abstract_labels.
  assert (S3 : map fst t3 = map fst t2) by apply step_to_datetime_labels.
  assert (S4 : subseq (map (fun x => fst (fst x)) t4) (map fst t3)) by apply step_drop_nat_labels.
  assert (S5 : map fst t5 = map (fun x => fst (fst x)) t4) by apply step_year_labels.
  assert (Sub : subseq (map fst t5) (map fst t)).
  { rewrite S5, <- S1. eapply subseq_trans; [exact S4|]. rewrite S3. exact S2. }
  assert (L := subseq_length _ _ Sub). apply subseq_length in S2, S4.
  rewrite !length_map in *.
  assert (E1 : length t1 = length t) by (unfold t1, step_fill; apply length_map).
  assert (E3 : length t3 = length t2) by (unfold t3, step_to_datetime; apply length_map).
  assert (E5 : length t5 = length t4) by (unfold t5, step_year; apply length_map).
  split; [lia|]. split; [lia|]. split; [lia|]. split; [lia|]. split; [lia|].
  split; [reflexivity|]. split; [exact Sub|]. split; [|exact L].
  intros i c H. destruct (clean_origin _ _ _ _ _ H) as (r & _ & Hin & _). now exists r.
Qed.

(* ================================================================== *)
(** * Rows without a title *)




(* ================================================================== *)
(** * Loader *)





(* ================================================================== *)
(** * Loading errors *)

Lemma load_and_clean_data_same to_datetime fs1 fs2 p n :
  fs1 p = fs2 p -> load_and_clean_data to_datetime fs1 p n = load_and_clean_data to_datetime fs2 p n.
Proof. intro H. unfold load_and_clean_data, read_csv. now rewrite H. Qed.

(** C6 (code_bug): when [metadata.csv] is missing or unreadable, the
    dashboard shows the error inline and stops ([st.stop]), but the batch
    script, after printing its message, runs on into the cleaning code and
    dies with an uncaught [NameError] on the unbound [df]. *)
Theorem load_failure_outcomes (to_datetime : string -> option Date)
    (sd : forall A : Type, list (A * nat) -> list (A * nat))
    (si : list (Z * nat) -> list (Z * nat)) (fs : FS) (c : Cache) (sel : option (Z * Z)) :
  fs "metadata.csv" = None \/ fs "metadata.csv" = Some Undecodable ->
  cache_lookup (FILE_PATH, 50000%N) c = None ->
  (exists m, batch_run to_datetime sd si fs = BatchCrash [m] (NameError "df")) /\
  (exists e, fst (page to_datetime sd si fs c sel) = (page_header ++ [WError e], StStop)).
Proof.
  intros Hfs Hc. unfold batch_run, page, cached_load, load_and_clean_data, read_csv.
  rewrite Hc. unfold file_path, FILE_PATH.
  destruct Hfs as [H|H]; rewrite H; simpl.
  - split; [now exists MNotFound | now exists FileNotFoundError].
  - split; [now exists (MUnexpected UnicodeDecodeError) | now exists UnicodeDecodeError].
Qed.

Lemma load_failure_outcomes_witness :
  batch_run parse_iso sd_stable si_insertion (fun _ => None)
    = BatchCrash [MNotFound] (NameError "df") /\
  (exists e, fst (page parse_iso sd_stable si_insertion (fun _ => None) [] None)
               = (page_header ++ [WError e], StStop)).
Proof.
  destruct (load_failure_outcomes parse_iso sd_stable si_insertion (fun _ => None) [] None
              (or_introl eq_refl) eq_refl) as [_ H].
  split; [vm_compute; reflexivity | exact H].
Defined.

(* ================================================================== *)
(** * Empty tables *)

Lemma sort_values_nil sd A : sort_values_contract sd -> sd A [] = [].
Proof. intro H. destruct (H A []) as [P _]. now apply Permutation_nil. Qed.

Lemma clean_ext (f g : string -> option Date) year_of (t : Table) :
  (forall i r s, In (i, r) t -> publish_time r = Some s -> f s = g s) ->
  clean f year_of t = clean g year_of t.
Proof.
  intro H. unfold clean. f_equal. f_equal. unfold step_to_datetime. apply map_ext_in.
  intros [i r] Hin. unfold step_drop_abstract in Hin. apply filter_In in Hin as [Hin _].
  unfold step_fill in Hin. apply in_map_iff in Hin as [[j r0] [E Hin]].
  injection E as <- <-. simpl.
  destruct (publish_time r0) as [s|] eqn:Es; [|reflexivity].
  now rewrite (H j r0 s Hin Es).
Qed.

(** C7 (code_bug): on an empty table the three aggregators give empty
    results; but when the year slider excludes every paper (here 2003..2005
    over papers dated 2000-01-01 and 2010-01-01, for any [to_datetime]
    reading these two ISO dates as those days) only the journals panel
    shows the "no data" message: the time-series and word panels show
    their header and nothing else. *)
Theorem empty_selection_panels (to_datetime : string -> option Date)
    (sd : forall A : Type, list (A * nat) -> list (A * nat))
    (si : list (Z * nat) -> list (Z * nat)) :
  sort_values_contract sd -> sort_index_contract si ->
  to_datetime "2000-01-01" = Some (mkDate 2000 1 1) ->
  to_datetime "2010-01-01" = Some (mkDate 2010 1 1) ->
  (forall n, top_journals sd n [] = []) /\
  publications_over_time sd si [] = [] /\
  (forall ft stop n, top_tokens ft stop n [] = []) /\
  fst (page to_datetime sd si gap_source [] (Some (2003%Z, 2005%Z)))
    = (page_header ++
       [WSlider 2000 2010; WSubheader 0 2003 2005;
        WHeader "1. Top 10 Publishing Journals";
        WWrite "No data available for the selected year range.";
        WHeader "2. Total Publications Over Time";
        WHeader "3. Top 10 Most Frequent Words";
        WHeader "Sample of Cleaned Data"; WTable []], PageDone).
Proof.
  intros Hsd Hsi H1 H2. split; [|split; [|split]].
  - intro n. unfold top_journals, value_counts. simpl. rewrite sort_values_nil by exact Hsd.
    now destruct n.
  - unfold publications_over_time, value_counts. simpl. rewrite sort_values_nil by exact Hsd.
    destruct (Hsi []) as [P _]. symmetry in P. now apply Permutation_nil.
  - intros ft stop n. unfold top_tokens, top_texts, most_common. simpl. now destruct n.
  - assert (E : page to_datetime sd si gap_source [] (Some (2003%Z, 2005%Z))
                = page parse_iso sd si gap_source [] (Some (2003%Z, 2005%Z))).
    { unfold page, cached_load. cbn [cache_lookup]. unfold load_and_clean_data.
      destruct (read_csv gap_source FILE_PATH 50000 OnBadSkip) as [df|e] eqn:Hr; [|reflexivity].
      destruct (project df) as [t|e] eqn:Hp; [|reflexivity].
      rewrite (clean_ext to_datetime parse_iso wrap32 t); [reflexivity|].
      intros i r s Hin Hs. vm_compute in Hr. injection Hr as <-.
      vm_compute in Hp. injection Hp as <-.
      destruct Hin as [E|[E|[]]]; injection E as <- <-; simpl in Hs; injection Hs as <-.
      - rewrite H1. reflexivity.
      - rewrite H2. reflexivity. }
    rewrite E. vm_compute. reflexivity.
Qed.

Lemma empty_selection_panels_witness :
  publications_over_time sd_stable si_insertion [] = [] /\
  fst (page parse_iso sd_stable si_insertion gap_source [] (Some (2003%Z, 2005%Z)))
    = (page_header ++
       [WSlider 2000 2010; WSubheader 0 2003 2005;
        WHeader "1. Top 10 Publishing Journals";
        WWrite "No data available for the selected year range.";
        WHeader "2. Total Publications Over Time";
        WHeader "3. Top 10 Most Frequent Words";
        WHeader "Sample of Cleaned Data"; WTable []], PageDone).
Proof.
  destruct (empty_selection_panels parse_iso sd_stable si_insertion sd_stable_contract
              si_insertion_contract eq_refl eq_refl)
    as (_ & H2 & _ & H4).
  split; [exact H2 | exact H4].
Defined.

(* ================================================================== *)
(** * Repeated runs *)

(** C9: the batch results depend on nothing but the file at the path, and
    two runs of the dashboard with the same file and slider, the second
    with the cache left by the first, show the same page. *)
Theorem pipeline_repeatable (to_datetime : string -> option Date)
    (sd : forall A : Type, list (A * nat) -> list (A * nat))
    (si : list (Z * nat) -> list (Z * nat)) (fs1 fs2 : FS) (c : Cache) (sel : option (Z * Z)) :
  fs1 "metadata.csv" = fs2 "metadata.csv" ->
  batch_run to_datetime sd si fs1 = batch_run to_datetime sd si fs2 /\
  fst (page to_datetime sd si fs2 (snd (page to_datetime sd si fs1 c sel)) sel)
    = fst (page to_datetime sd si fs1 c sel).
Proof.
  intro H. split.
  - unfold batch_run, read_csv, file_path. now rewrite H.
  - assert (HL := load_and_clean_data_same to_datetime fs1 fs2 FILE_PATH 50000%N H).
    unfold page, cached_load.
    destruct (cache_lookup (FILE_PATH, 50000%N) c) as [[w t]|] eqn:Hc.
    + simpl. now rewrite Hc.
    + rewrite <- HL. destruct (load_and_clean_data to_datetime fs1 FILE_PATH 50000%N)
        as [w [t|e]]; simpl.
      * reflexivity.
      * rewrite Hc. reflexivity.
Qed.

Lemma pipeline_repeatable_witness :
  fst (page parse_iso sd_stable si_insertion gap_source
            (snd (page parse_iso sd_stable si_insertion gap_source [] None)) None)
    = fst (page parse_iso sd_stable si_insertion gap_source [] None).
Proof.
  exact (proj2 (pipeline_repeatable parse_iso sd_stable si_insertion gap_source gap_source
                  [] None eq_refl)).
Defined.

(* ================================================================== *)
(** * Further properties: the tokenizer *)

Lemma split_ws_aux_pieces (P : ascii -> Prop) cs : forall cur piece,
  In piece (split_ws_aux cs cur) ->
  (forall c, In c cs -> P c) ->
  (forall c, In c cur -> P c /\ is_space c = false) ->
  forall c, In c piece -> P c /\ is_space c = false.
Proof.
  induction cs as [|d cs IH]; intros cur piece Hin Hcs Hcur c Hc; simpl in Hin.
  - destruct cur; simpl in Hin; [destruct Hin|].
    destruct Hin as [<-|[]]. apply Hcur. now apply in_rev.
  - destruct (is_space d) eqn:Ed.
    + destruct cur as [|x cur'].
      * eapply IH; [exact Hin | intros; apply Hcs; now right | intros ? [] | exact Hc].
      * destruct Hin as [<-|Hin].
        -- apply Hcur. now apply in_rev.
        -- eapply IH; [exact Hin | intros; apply Hcs; now right | intros ? [] | exact Hc].
    + eapply IH; [exact Hin | intros; apply Hcs; now right | | exact Hc].
      intros e [<-|He]; [split; [apply Hcs; now left | exact Ed] | now apply Hcur].
Qed.

(** [tokenize_and_clean] only returns words of at least three characters,
    every one a lowercase ASCII letter: no digits, punctuation or
    whitespace survive. *)
Theorem tokenize_and_clean_tokens (text w : string) :
  In w (tokenize_and_clean text) ->
  3 <= String.length w /\ Forall (fun c => is_lower c = true) (list_ascii_of_string w).
Proof.
  unfold tokenize_and_clean. intro H. apply filter_In in H as [H Hlen].
  apply Nat.ltb_lt in Hlen. split; [lia|].
  unfold split_ws in H. apply in_map_iff in H as [piece [<- Hp]].
  rewrite list_ascii_of_string_of_list_ascii. apply Forall_forall. intros c Hc.
  destruct (split_ws_aux_pieces (fun c => is_lower c || is_space c = true) _ [] piece Hp)
    with (c := c) as [H1 H2]; [| intros ? [] | exact Hc |].
  - intros e He. unfold strip_non_letters in He. now apply filter_In in He.
  - rewrite H2, orb_false_r in H1. exact H1.
Qed.

Lemma tokenize_and_clean_tokens_witness :
  tokenize_and_clean "COVID-19 spreads, 2020!" = ["covid"; "spreads"] /\
  3 <= String.length "covid" /\
  Forall (fun c => is_lower c = true) (list_ascii_of_string "covid").
Proof.
  split; [vm_compute; reflexivity|].
  apply (tokenize_and_clean_tokens "COVID-19 spreads, 2020!" "covid").
  vm_compute. now left.
Defined.

Lemma list_ascii_of_string_app s1 s2 :
  list_ascii_of_string (s1 ++ s2) = list_ascii_of_string s1 ++ list_ascii_of_string s2.
Proof. induction s1 as [|c s1 IH]; simpl; congruence. Qed.

Lemma split_ws_aux_space cs1 : forall c cs2 cur, is_space c = true ->
  split_ws_aux (cs1 ++ c :: cs2) cur = split_ws_aux cs1 cur ++ split_ws_aux cs2 [].
Proof.
  induction cs1 as [|d cs1 IH]; intros c cs2 cur Hc; simpl.
  - rewrite Hc. now destruct cur.
  - destruct (is_space d); [destruct cur|]; rewrite IH by exact Hc; reflexivity.
Qed.

(** Tokenizing two texts joined by a space gives the tokens of the first
    followed by those of the second; so the [full_text] of a row (title,
    a space, abstract) yields the title's tokens then the abstract's, in
    both variants. *)
Theorem tokenize_and_clean_concat (s1 s2 : string) :
  tokenize_and_clean (s1 ++ " " ++ s2) = tokenize_and_clean s1 ++ tokenize_and_clean s2 /\
  (forall r t a, c_title r = Some t -> c_abstract r = Some a ->
     all_words [full_text_batch r] = tokenize_and_clean t ++ tokenize_and_clean a /\
     all_words [full_text_interactive r] = tokenize_and_clean t ++ tokenize_and_clean a).
Proof.
  assert (Hcat : forall s1 s2, tokenize_and_clean (s1 ++ " " ++ s2)
                              = tokenize_and_clean s1 ++ tokenize_and_clean s2).
  { intros u v. unfold tokenize_and_clean, split_ws, strip_non_letters.
    rewrite list_ascii_of_string_app. simpl.
    rewrite map_app, filter_app. simpl.
    replace (lower_char " ") with " "%char by reflexivity.
    replace (is_lower " " || is_space " ") with true by reflexivity.
    rewrite split_ws_aux_space by reflexivity.
    rewrite map_app, filter_app. reflexivity. }
  split; [apply Hcat|].
  intros r t a Ht Ha. unfold full_text_batch, full_text_interactive. rewrite Ht, Ha.
  unfold all_words, flat_map. rewrite !app_nil_r, Hcat. split; reflexivity.
Qed.

(* ================================================================== *)
(** * Further properties: exact counts and the top-N cut *)

Section CounterCounts.
Context {A : Type} (dec : forall x y : A, {x = y} + {x <> y}).

Lemma counter_add_notin_eq c w :
  ~ In w (map fst c) -> counter_add dec c w = c ++ [(w, 1)].
Proof.
  induction c as [|[k n] c IH]; intros H; simpl; [reflexivity|].
  destruct (dec k w); [exfalso; apply H; now left|].
  rewrite IH; [reflexivity | intro; apply H; now right].
Qed.

Lemma counter_add_in_cases c w k m :
  NoDup (map fst c) -> In w (map fst c) -> In (k, m) (counter_add dec c w) ->
  (k = w /\ exists n, In (w, n) c /\ m = S n) \/ (k <> w /\ In (k, m) c).
Proof.
  induction c as [|[k0 n0] c IH]; intros Hnd Hw Hin; [destruct Hw|]. simpl in *.
  inversion Hnd as [|? ? Hk0 Hnd']; subst.
  destruct (dec k0 w) as [->|Hne].
  - destruct Hin as [E|Hin].
    + injection E as <- <-. left. split; [reflexivity|]. exists n0. auto.
    + right. split; [|now right]. intros ->. apply Hk0, in_map_iff. now exists (w, m).
  - destruct Hin as [E|Hin].
    + injection E as <- <-. right. auto.
    + destruct Hw as [Hw|Hw]; [congruence|].
      destruct (IH Hnd' Hw Hin) as [[-> [n [Hn ->]]]|[Hk Hkm]].
      * left. split; [reflexivity|]. exists n. auto.
      * right. auto.
Qed.

Lemma count_occ_snoc p w k :
  count_occ dec (p ++ [w]) k = count_occ dec p k + (if dec w k then 1 else 0).
Proof. rewrite count_occ_app. simpl. now destruct (dec w k). Qed.

Lemma counter_counts_fold s : forall p c,
  counter_inv dec p c -> (forall k m, In (k, m) c -> m = count_occ dec p k) ->
  forall k m, In (k, m) (fold_left (counter_add dec) s c) -> m = count_occ dec (p ++ s) k.
Proof.
  induction s as [|w s IH]; intros p c Hinv Hc; simpl.
  - rewrite app_nil_r. exact Hc.
  - replace (p ++ w :: s) with ((p ++ [w]) ++ s) by now rewrite <- app_assoc.
    apply IH; [now apply counter_inv_step|].
    destruct Hinv as (Hk & Hs & _).
    assert (Hnd : NoDup (map fst c)) by exact (StronglySorted_NoDup (fun a => index_of dec a p) _ Hs).
    intros k m Hin. rewrite count_occ_snoc.
    destruct (in_dec dec w (map fst c)) as [Hw|Hw].
    + destruct (counter_add_in_cases c w k m Hnd Hw Hin) as [[-> [n [Hn ->]]]|[Hne Hkm]].
      * rewrite (Hc _ _ Hn). destruct (dec w w); [lia | congruence].
      * rewrite (Hc _ _ Hkm). destruct (dec w k); [congruence | lia].
    + rewrite counter_add_notin_eq in Hin by exact Hw. apply in_app_or in Hin as [Hin|[E|[]]].
      * rewrite (Hc _ _ Hin). destruct (dec w k) as [<-|]; [|lia].
        exfalso. apply Hw, in_map_iff. now exists (w, m).
      * injection E as <- <-.
        assert (~ In w p) by (intro; apply Hw, Hk; assumption).
        rewrite (proj1 (count_occ_not_In dec p w)) by assumption.
        destruct (dec w w); [lia | congruence].
Qed.

Lemma counter_counts ws k m :
  In (k, m) (counter dec ws) -> m = count_occ dec ws k.
Proof.
  apply (counter_counts_fold ws [] []); [|intros ? ? []].
  split; [|split]; simpl; [tauto | constructor | reflexivity].
Qed.

Lemma counter_has_key ws w : In w ws -> exists m, In (w, m) (counter dec ws).
Proof.
  intro H. apply (counter_keys dec ws w), in_map_iff in H as [[k m] [Hk Hin]].
  simpl in Hk. subst k. now exists m.
Qed.
End CounterCounts.

Lemma StronglySorted_app_rel {T} (R : T -> T -> Prop) l1 l2 a b :
  StronglySorted R (l1 ++ l2) -> In a l1 -> In b l2 -> R a b.
Proof.
  induction l1 as [|x l1 IH]; intros Hs Ha Hb; [destruct Ha|].
  simpl in Hs. apply StronglySorted_inv in Hs as [Hs Hf].
  destruct Ha as [<-|Ha]; [|now apply IH].
  rewrite Forall_forall in Hf. apply Hf, in_or_app. now right.
Qed.

(** In a list sorted by non-increasing count, an entry whose key did not
    make the first [n] has a count no larger than any of those [n]. *)
Lemma firstn_top {B} (l : list (B * nat)) n w k :
  StronglySorted (fun a b => snd b <= snd a) l ->
  In (w, k) l -> ~ In w (map fst (firstn n l)) ->
  forall e, In e (firstn n l) -> k <= snd e.
Proof.
  intros Hs Hin Hw e He. rewrite <- (firstn_skipn n l) in Hs, Hin.
  apply in_app_or in Hin as [Hin|Hin].
  - exfalso. apply Hw, in_map_iff. now exists (w, k).
  - exact (StronglySorted_app_rel _ _ _ _ _ Hs He Hin).
Qed.

(** [Counter.most_common(10)] as used for the word chart: every returned
    count is the exact number of occurrences of the word in the filtered
    word stream, and a word left out occurs no more often than any word
    returned. *)
Theorem top_texts_counts (stop : list string) (n : nat) (texts : list cell) :
  let ws := filtered_words stop (all_words texts) in
  let res := top_texts stop n texts in
  (forall w k, In (w, k) res -> k = count_occ string_dec ws w) /\
  (forall w, In w ws -> ~ In w (map fst res) ->
     forall e, In e res -> count_occ string_dec ws w <= snd e).
Proof.
  intros ws res.
  assert (Hs : StronglySorted (fun a b => snd b <= snd a)
                 (sorted_desc_stable (counter string_dec ws))).
  { apply Sorted_StronglySorted; [intros ? ? ?; lia|].
    apply isort_sorted. intros x y. split; intro E;
      [apply Nat.leb_le in E | apply Nat.leb_gt in E]; lia. }
  split.
  - intros w k H. apply most_common_in in H. exact (counter_counts _ _ _ _ H).
  - intros w Hw Hres e He.
    destruct (counter_has_key string_dec ws w Hw) as [m Hm].
    rewrite <- (counter_counts _ _ _ _ Hm).
    apply Permutation_in with (l' := sorted_desc_stable (counter string_dec ws)) in Hm;
      [|apply isort_perm].
    exact (firstn_top _ n w m Hs Hm Hres e He).
Qed.

Lemma journals_count t j :
  j <> "Unknown Journal" ->
  count_occ string_dec (journals_counted t) j
    = length (filter (fun p => cell_eqb (c_journal (snd p)) j) t).
Proof.
  intros Hj. induction t as [|p t IH]; [reflexivity|].
  unfold journals_counted, dropna_values in *. simpl.
  destruct (c_journal (snd p)) as [s|] eqn:E; simpl; rewrite ?E; simpl; [|exact IH].
  destruct (String.eqb s "Unknown Journal") eqn:Es; simpl; rewrite ?E; simpl.
  - apply String.eqb_eq in Es. subst s.
    destruct (String.eqb_spec "Unknown Journal" j); [congruence | exact IH].
  - destruct (string_dec s j) as [->|Hne]; simpl.
    + rewrite String.eqb_refl. simpl. now f_equal.
    + destruct (String.eqb_spec s j); [congruence | exact IH].
Qed.

Lemma journals_counted_in t p j :
  In p t -> c_journal (snd p) = Some j -> j <> "Unknown Journal" -> In j (journals_counted t).
Proof.
  intros Hp Hc Hj. unfold journals_counted, dropna_values. apply in_flat_map.
  exists (Some j). split; [|now left].
  apply in_map_iff. exists p. split; [exact Hc|].
  apply filter_In. split; [exact Hp|]. rewrite Hc. simpl.
  destruct (String.eqb_spec j "Unknown Journal"); [congruence | reflexivity].
Qed.

(** [top_journals]: for any sort meeting the [sort_values] contract, each
    returned count is the number of rows carrying that journal, and a
    journal (other than the sentinel) that did not make the top [n] has no
    more rows than any journal returned. *)
Theorem top_journals_counts (sd : forall A : Type, list (A * nat) -> list (A * nat)) :
  sort_values_contract sd ->
  forall (n : nat) (t : CTable),
    let rows_of j := length (filter (fun p => cell_eqb (c_journal (snd p)) j) t) in
    let res := top_journals sd n t in
    (forall j k, In (j, k) res -> k = rows_of j) /\
    (forall p j, In p t -> c_journal (snd p) = Some j -> j <> "Unknown Journal" ->
       ~ In j (map fst res) -> forall e, In e res -> rows_of j <= snd e).
Proof.
  intros Hsd n t rows_of res.
  set (c := counter string_dec (journals_counted t)).
  destruct (Hsd string c) as [Hp Hs].
  split.
  - intros j k H. apply in_firstn in H. unfold value_counts in H. fold c in H.
    apply Permutation_in with (l' := c) in H; [|symmetry; exact Hp].
    unfold rows_of. rewrite <- journals_count.
    + exact (counter_counts _ _ _ _ H).
    + apply journals_counted_not_sentinel with t.
      apply counter_keys with string_dec, in_map_iff. now exists (j, k).
  - intros p j Hin Hc Hj Hres e He.
    destruct (counter_has_key string_dec (journals_counted t) j
                (journals_counted_in t p j Hin Hc Hj)) as [m Hm].
    unfold rows_of. rewrite <- journals_count by exact Hj.
    rewrite <- (counter_counts _ _ _ _ Hm).
    fold c in Hm. apply Permutation_in with (l' := sd string c) in Hm; [|exact Hp].
    apply Sorted_StronglySorted in Hs; [|intros ? ? ?; lia].
    exact (firstn_top _ n j m Hs Hm Hres e He).
Qed.

Lemma top_journals_counts_witness :
  sort_values_contract sd_stable /\
  top_journals sd_stable 1 (two_journals ++ [(RangeLabel 2, jrow "B" 2022)]) = [("B", 2)] /\
  1 <= snd ("B", 2).
Proof.
  split; [exact sd_stable_contract|]. split; [vm_compute; reflexivity|].
  apply (proj2 (top_journals_counts sd_stable sd_stable_contract 1
                  (two_journals ++ [(RangeLabel 2, jrow "B" 2022)]))
           (RangeLabel 0, jrow "A" 2020) "A"); [now left | reflexivity | discriminate | |].
  - vm_compute. intros [H|[]]; discriminate H.
  - vm_compute. now left.
Defined.

Lemma count_occ_map_years (t : CTable) y :
  count_occ Z.eq_dec (map year_of_row t) y = length (filter (fun p => Z.eqb (year_of_row p) y) t).
Proof.
  induction t as [|p t IH]; [reflexivity|]. simpl.
  destruct (Z.eq_dec (year_of_row p) y) as [E|E];
    [rewrite (proj2 (Z.eqb_eq _ _) E) | rewrite (proj2 (Z.eqb_neq _ _) E)]; simpl; lia.
Qed.

(** [publications_over_time]: for any sorts meeting the [sort_values] and
    [sort_index] contracts, the count shown for a year is the number of
    rows whose publication year it is, and it is never zero. *)
Theorem publications_over_time_counts (sd : forall A : Type, list (A * nat) -> list (A * nat))
    (si : list (Z * nat) -> list (Z * nat)) :
  sort_values_contract sd -> sort_index_contract si ->
  forall (t : CTable) y k,
    In (y, k) (publications_over_time sd si t) ->
    k = length (filter (fun p => Z.eqb (year_of_row p) y) t) /\ 0 < k.
Proof.
  intros Hsd Hsi t y k H.
  set (c := counter Z.eq_dec (map year_of_row t)).
  destruct (Hsd Z c) as [P1 _]. destruct (Hsi (sd Z c)) as [P2 _].
  assert (Hc : In (y, k) c).
  { apply Permutation_in with (l := publications_over_time sd si t); [|exact H].
    symmetry. eapply perm_trans; [exact P1 | exact P2]. }
  rewrite <- count_occ_map_years, <- (counter_counts _ _ _ _ Hc). split; [reflexivity|].
  rewrite (counter_counts _ _ _ _ Hc). apply count_occ_In, (counter_keys Z.eq_dec).
  apply in_map_iff. now exists (y, k).
Qed.

Lemma publications_over_time_counts_witness :
  sort_values_contract sd_stable /\ sort_index_contract si_insertion /\
  In (2021%Z, 2) (publications_over_time sd_stable si_insertion
                    (two_journals ++ [(RangeLabel 2, jrow "C" 2021)])) /\
  2 = length (filter (fun p => Z.eqb (year_of_row p) 2021) (two_journals ++ [(RangeLabel 2, jrow "C" 2021)])) /\
  0 < 2.
Proof.
  split; [exact sd_stable_contract|]. split; [exact si_insertion_contract|].
  split; [vm_compute; right; left; reflexivity|].
  apply (publications_over_time_counts sd_stable si_insertion sd_stable_contract
           si_insertion_contract). vm_compute. right. now left.
Defined.

(* ================================================================== *)
(** * Further properties of the reader *)

Lemma pad_length k : forall fs, length (pad k fs) = k.
Proof. induction k as [|k IH]; intros [|f fs]; simpl; auto. Qed.

Lemma pad_not_na k : forall fs s, In (Some s) (pad k fs) -> mem s na_values = false.
Proof.
  induction k as [|k IH]; intros [|f fs] s H; simpl in H; try contradiction.
  - destruct H as [H|H]; [discriminate H | exact (IH [] s H)].
  - destruct H as [H|H]; [|exact (IH fs s H)].
    unfold to_cell in H. destruct (mem f na_values) eqn:E; [discriminate H|].
    injection H as <-. exact E.
Qed.

Lemma in_skipn_in {T} k (l : list T) x : In x (skipn k l) -> In x l.
Proof. intro H. rewrite <- (firstn_skipn k l). apply in_or_app. now right. Qed.

Lemma in_firstn_in {T} k (l : list T) x : In x (firstn k l) -> In x l.
Proof. intro H. rewrite <- (firstn_skipn k l). apply in_or_app. now left. Qed.

(** The shape of one row: [w - k] cells, the RangeIndex label without an
    implicit index, else [k] index values; no NA string survives. *)
Definition row_shape (w k : nat) (r : Label * list cell) : Prop :=
  length (snd r) = w - k /\
  (forall s, In (Some s) (snd r) -> mem s na_values = false) /\
  (0 < k -> exists vs, fst r = IndexLabel vs /\ length vs = k /\
                       forall s, In (Some s) vs -> mem s na_values = false).

Lemma make_row_shape k w i l : k <= w ->
  row_shape w k (make_row k w i l) /\ (k = 0 -> fst (make_row k w i l) = RangeLabel i).
Proof.
  intro Hk. unfold make_row, row_shape. destruct k as [|k'].
  - simpl. split; [|reflexivity]. rewrite pad_length. split; [lia|].
    split; [apply pad_not_na | lia].
  - cbn [fst snd]. split; [|discriminate]. rewrite length_skipn, pad_length.
    split; [reflexivity|]. split.
    + intros s H. apply in_skipn_in in H. exact (pad_not_na _ _ _ H).
    + intros _. eexists. split; [reflexivity|]. split.
      * rewrite length_firstn, pad_length. lia.
      * intros s H. apply in_firstn_in in H. exact (pad_not_na _ _ _ H).
Qed.

Lemma read_lines_ok w k mode ls : forall n i rows,
  k <= w ->
  read_lines w k mode n i ls = Ok rows ->
  length rows <= N.to_nat n /\
  (k = 0 -> map fst rows = map RangeLabel (seq i (length rows))) /\
  Forall (row_shape w k) rows.
Proof.
  induction ls as [|l ls IH]; intros n i rows Hk H; simpl in H.
  - injection H as <-. simpl. split; [lia|]. split; [reflexivity | constructor].
  - destruct (N.eqb n 0) eqn:En; [injection H as <-; simpl; split; [lia|]; split; [reflexivity | constructor]|].
    apply N.eqb_neq in En.
    destruct l as [|f l']; [exact (IH n i rows Hk H)|].
    destruct (Nat.ltb w (length (f :: l'))).
    + destruct mode; [discriminate H | exact (IH n i rows Hk H)].
    + destruct (read_lines w k mode (N.pred n) (S i) ls) as [rows'|e] eqn:Hr;
        [|discriminate H].
      injection H as <-. destruct (IH _ _ _ Hk Hr) as (Hn & Hl & Hf).
      destruct (make_row_shape k w i (f :: l') Hk) as [Hs Hlab].
      simpl. split; [|split].
      * rewrite N2Nat.inj_pred in Hn. lia.
      * intro Hk0. rewrite (Hlab Hk0), (Hl Hk0). reflexivity.
      * constructor; assumption.
Qed.

Lemma length_list_set {T} (l : list T) : forall i x, length (list_set l i x) = length l.
Proof. induction l as [|y l IH]; intros [|i] x; simpl; auto. Qed.

Lemma length_dedup_at order : forall hdr counts,
  length (dedup_at order hdr counts) = length hdr.
Proof.
  induction order as [|i order IH]; intros hdr counts; cbn [dedup_at]; [reflexivity|].
  destruct (dedup_while _ _ _ _ _ _) as [[col' cur] counts'].
  rewrite IH. apply length_list_set.
Qed.

Lemma length_mapi_from {T U} (f : nat -> T -> U) l : forall i, length (mapi_from f i l) = length l.
Proof. induction l as [|x l IH]; intro i; simpl; auto. Qed.

Lemma length_header_names h : length (header_names h) = length h.
Proof. unfold header_names. rewrite length_dedup_at. apply length_mapi_from. Qed.

Lemma read_csv_shape (fs : FS) (path : string) (nrows : N) (mode : BadLines) (df : Frame) :
  read_csv fs path nrows mode = Ok df ->
  exists lines h ls, fs path = Some (Csv lines) /\ drop_blank lines = h :: ls /\
    columns df = header_names h /\ length (columns df) = length h /\
    length (frame_rows df) <= N.to_nat nrows /\
    let k := Nat.max (length h) (first_width ls) - length h in
    (k = 0 -> map fst (frame_rows df) = map RangeLabel (seq 0 (length (frame_rows df)))) /\
    Forall (row_shape (length h + k) k) (frame_rows df).
Proof.
  unfold read_csv. destruct (fs path) as [[lines|]|] eqn:Hf; try discriminate.
  destruct (drop_blank lines) as [|h ls] eqn:Hd; [discriminate|].
  set (w := Nat.max (length h) (first_width ls)).
  destruct (read_lines w (w - length h) mode nrows 0 ls) as [rows|e] eqn:Hr; [|discriminate].
  intro H. injection H as <-. exists lines, h, ls. cbn [columns frame_rows].
  split; [reflexivity|]. split; [exact Hd|]. split; [reflexivity|].
  split; [apply length_header_names|]. fold w.
  assert (Hw : length h + (w - length h) = w) by lia. rewrite Hw.
  apply (read_lines_ok w (w - length h) mode ls nrows 0 rows); [lia | exact Hr].
Qed.

(** What a successful [pd.read_csv] gives: the columns are the names of the
    file's first non-blank line after pandas' renaming (as many as there
    are fields), at most [nrows] rows, each with exactly one cell per
    column (short lines padded with NaN) and no cell holding one of pandas'
    NA strings such as "NaN", "null" or "".  The labels are the RangeIndex
    0, 1, 2, ... when the first data line is no wider than the header;
    otherwise each label is the implicit index made of the [k] extra
    leading fields of its line. *)
Theorem read_csv_frame (fs : FS) (path : string) (nrows : N) (mode : BadLines) (df : Frame) :
  read_csv fs path nrows mode = Ok df ->
  exists lines h ls, fs path = Some (Csv lines) /\ drop_blank lines = h :: ls /\
    columns df = header_names h /\ length (columns df) = length h /\
    length (frame_rows df) <= N.to_nat nrows /\
    let k := Nat.max (length h) (first_width ls) - length h in
    (k = 0 -> map fst (frame_rows df) = map RangeLabel (seq 0 (length (frame_rows df)))) /\
    Forall (row_shape (length h + k) k) (frame_rows df).
Proof. apply read_csv_shape. Qed.

(** A file whose first data line has one more field than the header. *)
Definition indexed_source : FS :=
  single_file
    [["p1"; "Paper one"; "First abstract"; "2020-01-01"; "Ann"; "J1"; "PMC"; "u1"];
     ["p2"; "Paper two"; "Second abstract"; "2021-01-01"; "Bob"; "J2"; "PMC"; "u2"];
     ["Paper three"; "Third abstract"]].

Lemma read_csv_frame_witness :
  (exists df, read_csv na_source "metadata.csv" 2 OnBadSkip = Ok df /\
    map fst (frame_rows df) = [RangeLabel 0; RangeLabel 1] /\
    length (frame_rows df) <= N.to_nat 2) /\
  (exists df, read_csv indexed_source "metadata.csv" 50000 OnBadError = Ok df /\
    map fst (frame_rows df)
      = [IndexLabel [Some "p1"]; IndexLabel [Some "p2"]; IndexLabel [Some "Paper three"]] /\
    length (columns df) = 7).
Proof.
  split.
  - eexists. split; [vm_compute; reflexivity|]. split; [vm_compute; reflexivity|].
    destruct (read_csv_frame na_source "metadata.csv" 2 OnBadSkip
                (mkFrame COLUMNS_TO_KEEP
                   [(RangeLabel 0, [Some "Paper one"; None; Some "2020-01-01"; Some "Ann";
                                    Some "J1"; Some "PMC"; Some "u1"]);
                    (RangeLabel 1, [Some "Paper two"; Some "Second abstract"; Some "2021-01-01";
                                    None; Some "J2"; Some "PMC"; Some "u2"])])
                ltac:(vm_compute; reflexivity))
      as (lines & h & ls & _ & _ & _ & _ & Hn & _).
    exact Hn.
  - eexists. split; [vm_compute; reflexivity|]. split; [vm_compute; reflexivity|].
    destruct (read_csv_frame indexed_source "metadata.csv" 50000 OnBadError
                (mkFrame COLUMNS_TO_KEEP
                   [(IndexLabel [Some "p1"], [Some "Paper one"; Some "First abstract";
                       Some "2020-01-01"; Some "Ann"; Some "J1"; Some "PMC"; Some "u1"]);
                    (IndexLabel [Some "p2"], [Some "Paper two"; Some "Second abstract";
                       Some "2021-01-01"; Some "Bob"; Some "J2"; Some "PMC"; Some "u2"]);
                    (IndexLabel [Some "Paper three"], [Some "Third abstract"; None; None;
                       None; None; None; None])])
                ltac:(vm_compute; reflexivity))
      as (lines & h & ls & Hf & Hd & _ & Hc & _).
    vm_compute in Hf. injection Hf as <-. vm_compute in Hd. injection Hd as <- _.
    exact Hc.
Defined.



Lemma read_lines_strict_skip w k ls : forall n i rows,
  read_lines w k OnBadError n i ls = Ok rows -> read_lines w k OnBadSkip n i ls = Ok rows.
Proof.
  induction ls as [|l ls IH]; intros n i rows H; simpl in *; [exact H|].
  destruct (N.eqb n 0); [exact H|].
  destruct l as [|f l']; [exact (IH n i rows H)|].
  destruct (Nat.ltb w (length (f :: l'))); [discriminate H|].
  destruct (read_lines w k OnBadError (N.pred n) (S i) ls) eqn:E; [|discriminate H].
  now rewrite (IH _ _ _ E).
Qed.

Lemma read_csv_strict_skip fs path nrows df :
  read_csv fs path nrows OnBadError = Ok df -> read_csv fs path nrows OnBadSkip = Ok df.
Proof.
  unfold read_csv. destruct (fs path) as [[lines|]|]; try discriminate.
  destruct (drop_blank lines) as [|h ls]; [discriminate|].
  destruct (read_lines _ _ OnBadError nrows 0 ls) eqn:E; [|discriminate].
  now rewrite (read_lines_strict_skip _ _ _ _ _ _ E).
Qed.

(** When the batch script's strict read succeeds, the dashboard's
    [on_bad_lines='skip'] read of the same file gives the same frame. *)
Theorem read_csv_strict_agrees (fs : FS) (path : string) (nrows : N) (df : Frame) :
  read_csv fs path nrows OnBadError = Ok df -> read_csv fs path nrows OnBadSkip = Ok df.
Proof. apply read_csv_strict_skip. Qed.

Lemma read_csv_strict_agrees_witness :
  exists df, read_csv indexed_source "metadata.csv" 50000 OnBadError = Ok df /\
    read_csv indexed_source "metadata.csv" 50000 OnBadSkip = Ok df.
Proof.
  eexists. split; [vm_compute; reflexivity|].
  refine (read_csv_strict_agrees indexed_source "metadata.csv" 50000 _ _).
  vm_compute. reflexivity.
Defined.

(* ================================================================== *)
(** * Further properties of the dashboard loader *)

Lemma StronglySorted_subseq {T} (R : T -> T -> Prop) (l1 l2 : list T) :
  subseq l1 l2 -> StronglySorted R l2 -> StronglySorted R l1.
Proof.
  induction 1 as [|x l1 l2 H IH|x l1 l2 H IH]; intros Hs; [constructor| |].
  - apply StronglySorted_inv in Hs as [Hs _]. now apply IH.
  - apply StronglySorted_inv in Hs as [Hs Hf]. constructor; [now apply IH|].
    rewrite Forall_forall in *. intros y Hy. apply Hf.
    clear -H Hy. induction H; simpl in *; tauto.
Qed.

Lemma StronglySorted_seq i k : StronglySorted lt (seq i k).
Proof.
  revert i. induction k as [|k IH]; intro i; simpl; constructor; [apply IH|].
  apply Forall_forall. intros y Hy. apply in_seq in Hy. lia.
Qed.

Lemma clean_labels to_datetime year_of t :
  subseq (map fst (clean to_datetime year_of t)) (map fst t).
Proof.
  unfold clean. rewrite step_year_labels.
  eapply subseq_trans; [apply step_drop_nat_labels|].
  rewrite step_to_datetime_labels.
  eapply subseq_trans; [apply step_drop_abstract_labels|].
  rewrite step_fill_labels. apply subseq_refl.
Qed.

Lemma cell_at_in h row c s : cell_at h row c = Some s -> In (Some s) row.
Proof.
  unfold cell_at. destruct (col_index c h) as [k|]; [|discriminate].
  intro H. destruct (Nat.lt_ge_cases k (length row)) as [Hk|Hk].
  - rewrite <- H. now apply nth_In.
  - rewrite nth_overflow in H by exact Hk. discriminate H.
Qed.

Lemma project_rows df t :
  project df = Ok t ->
  map fst t = map fst (frame_rows df) /\
  forall i r, In (i, r) t -> exists row, In (i, row) (frame_rows df) /\
    forall s, (abstract r = Some s \/ authors r = Some s \/ journal r = Some s) -> In (Some s) row.
Proof.
  unfold project. destruct (find _ _); [discriminate|]. intro H. injection H as <-.
  split.
  - rewrite map_map. apply map_ext. now intros [i row].
  - intros i r Hin. apply in_map_iff in Hin as [[j row] [E Hin]].
    injection E as <- <-. exists row. split; [exact Hin|].
    intros s [Hs|[Hs|Hs]]; simpl in Hs; eapply cell_at_in; exact Hs.
Qed.

Lemma subseq_map_inv {T U} (f : T -> U) (l : list U) (l2 : list T) :
  subseq l (map f l2) -> exists l1, l = map f l1 /\ subseq l1 l2.
Proof.
  revert l. induction l2 as [|x l2 IH]; intros l H; simpl in H.
  - inversion H; subst. exists []. split; [reflexivity | constructor].
  - inversion H as [|? ? ? H'|? l' ? H']; subst.
    + destruct (IH l H') as [l1 [E S]]. exists l1. split; [exact E | now constructor].
    + destruct (IH l' H') as [l1 [E S]]. exists (x :: l1). split; [simpl; now f_equal | now constructor].
Qed.

Lemma subseq_in {T} (l1 l2 : list T) x : subseq l1 l2 -> In x l1 -> In x l2.
Proof. induction 1; simpl; tauto. Qed.

(** The table [load_and_clean_data] returns: at most [nrows] rows, labels
    either strictly increasing RangeIndex positions or all implicit-index
    values, every abstract present and never one of pandas' NA strings, and
    authors and journal each either a real value (again not an NA string
    such as "null") or the sentinel. *)
Theorem load_and_clean_data_rows (to_datetime : string -> option Date) (fs : FS)
    (path : string) (nrows : N) (w : list Widget) (c : CTable) :
  load_and_clean_data to_datetime fs path nrows = (w, Ok c) ->
  ((exists js, map fst c = map RangeLabel js /\ StronglySorted lt js) \/
   (forall i r, In (i, r) c -> exists vs, i = IndexLabel vs)) /\
  length c <= N.to_nat nrows /\
  forall i r, In (i, r) c ->
    (exists a, c_abstract r = Some a /\ mem a na_values = false) /\
    (exists x, c_authors r = Some x /\ (x = "Unknown Author" \/ mem x na_values = false)) /\
    (exists j, c_journal r = Some j /\ (j = "Unknown Journal" \/ mem j na_values = false)).
Proof.
  unfold load_and_clean_data.
  destruct (read_csv fs path nrows OnBadSkip) as [df|e] eqn:Hr.
  2: { intro H. injection H as <- <-. simpl. split; [left; exists []; split; [reflexivity | constructor]|].
       split; [lia | tauto]. }
  destruct (read_csv_shape _ _ _ _ _ Hr) as (lines & h & ls & _ & _ & _ & _ & Hn & Hl & Hf).
  destruct (project df) as [t|e] eqn:Hp; [|discriminate].
  intro H. injection H as <- <-.
  destruct (project_rows df t Hp) as [Hpl Hpr].
  assert (Hsub := clean_labels to_datetime wrap32 t). rewrite Hpl in Hsub.
  split; [|split].
  - set (k := Nat.max (length h) (first_width ls) - length h) in *.
    destruct (Nat.eq_dec k 0) as [Hk|Hk].
    + left. rewrite (Hl Hk) in Hsub.
      destruct (subseq_map_inv RangeLabel _ _ Hsub) as [js [Ej Sj]].
      exists js. split; [exact Ej|]. eapply StronglySorted_subseq; [exact Sj|].
      apply StronglySorted_seq.
    + right. intros i r Hin.
      assert (Hi : In i (map fst (frame_rows df))).
      { eapply subseq_in; [exact Hsub|]. apply in_map_iff. now exists (i, r). }
      apply in_map_iff in Hi as [[i' row] [Ei Hrow]]. simpl in Ei. subst i'.
      rewrite Forall_forall in Hf. destruct (Hf _ Hrow) as (_ & _ & Hix).
      destruct (Hix ltac:(lia)) as [vs [Ev _]]. now exists vs.
  - rewrite <- (length_map fst), <- (length_map fst (frame_rows df)) in *.
    apply subseq_length in Hsub. lia.
  - intros i r Hin.
    destruct (clean_origin _ _ _ _ _ Hin) as (r0 & s0 & Hin0 & _ & _ & Ha & Hna & _ & Hau & Hjo).
    destruct (Hpr i r0 Hin0) as [row [Hrow Hcells]].
    rewrite Forall_forall in Hf. destruct (Hf _ Hrow) as (_ & Hnot & _). simpl in Hnot.
    split; [|split].
    + destruct (c_abstract r) as [a|] eqn:Ea; [|congruence].
      exists a. split; [reflexivity|]. apply Hnot, Hcells. left. congruence.
    + rewrite Hau. destruct (authors r0) as [x|] eqn:Ex; simpl.
      * exists x. split; [reflexivity|]. right. apply Hnot, Hcells. right. left. reflexivity.
      * eexists. split; [reflexivity | now left].
    + rewrite Hjo. destruct (journal r0) as [j|] eqn:Ej; simpl.
      * exists j. split; [reflexivity|]. right. apply Hnot, Hcells. right. right. reflexivity.
      * eexists. split; [reflexivity | now left].
Qed.

Lemma load_and_clean_data_rows_witness :
  exists c, load_and_clean_data parse_iso na_source "metadata.csv" 50000 = ([], Ok c) /\
    map fst c = [RangeLabel 1; RangeLabel 2] /\
    map (fun p => c_authors (snd p)) c = [Some "Unknown Author"; Some "Unknown Author"] /\
    length c <= N.to_nat 50000.
Proof.
  eexists. split; [vm_compute; reflexivity|]. split; [vm_compute; reflexivity|].
  split; [vm_compute; reflexivity|].
  refine (proj1 (proj2 (load_and_clean_data_rows parse_iso na_source "metadata.csv" 50000 [] _ _))).
  vm_compute. reflexivity.
Defined.

(* ================================================================== *)
(** * Further properties of the page *)

Lemma fold_min_bounds (l : list Z) : forall a,
  (fold_left Z.min l a <= a)%Z /\ (forall x, In x l -> fold_left Z.min l a <= x)%Z /\
  (fold_left Z.min l a = a \/ In (fold_left Z.min l a) l).
Proof.
  induction l as [|x l IH]; intro a; simpl; [split; [lia | split; [tauto | now left]]|].
  destruct (IH (Z.min a x)) as (H1 & H2 & H3). split; [lia|]. split.
  - intros y [<-|Hy]; [lia | now apply H2].
  - destruct H3 as [H3|H3]; [|tauto]. rewrite H3.
    destruct (Z.min_spec a x) as [[_ ->]|[_ ->]]; [now left | right; now left].
Qed.

Lemma fold_max_bounds (l : list Z) : forall a,
  (a <= fold_left Z.max l a)%Z /\ (forall x, In x l -> x <= fold_left Z.max l a)%Z /\
  (fold_left Z.max l a = a \/ In (fold_left Z.max l a) l).
Proof.
  induction l as [|x l IH]; intro a; simpl; [split; [lia | split; [tauto | now left]]|].
  destruct (IH (Z.max a x)) as (H1 & H2 & H3). split; [lia|]. split.
  - intros y [<-|Hy]; [lia | now apply H2].
  - destruct H3 as [H3|H3]; [|tauto]. rewrite H3.
    destruct (Z.max_spec a x) as [[_ ->]|[_ ->]]; [right; now left | now left].
Qed.

Lemma filter_all {T} (f : T -> bool) l : (forall x, In x l -> f x = true) -> filter f l = l.
Proof.
  induction l as [|x l IH]; intro H; simpl; [reflexivity|].
  rewrite (H x (or_introl eq_refl)). f_equal. apply IH. intros y Hy. apply H. now right.
Qed.

Lemma render_years p (t' : CTable) :
  let t : CTable := p :: t' in
  let mn := fold_left Z.min (map year_of_row t) (year_of_row p) in
  let mx := fold_left Z.max (map year_of_row t) (year_of_row p) in
  (forall q, In q t -> mn <= year_of_row q <= mx)%Z /\
  (exists q, In q t /\ year_of_row q = mn) /\ (exists q, In q t /\ year_of_row q = mx).
Proof.
  intros t mn mx.
  destruct (fold_min_bounds (map year_of_row t) (year_of_row p)) as (_ & Hm2 & Hm3).
  destruct (fold_max_bounds (map year_of_row t) (year_of_row p)) as (_ & HM2 & HM3).
  fold mn in Hm2, Hm3. fold mx in HM2, HM3.
  split; [|split].
  - intros q Hq. split; [apply Hm2 | apply HM2]; apply in_map; exact Hq.
  - destruct Hm3 as [E|E]; [exists p; split; [now left | now rewrite E]|].
    apply in_map_iff in E as [q [Eq Hq]]. now exists q.
  - destruct HM3 as [E|E]; [exists p; split; [now left | now rewrite E]|].
    apply in_map_iff in E as [q [Eq Hq]]. now exists q.
Qed.

Lemma render_none_cons sd si w p t' :
  let t : CTable := p :: t' in
  let mn := fold_left Z.min (map year_of_row t) (year_of_row p) in
  let mx := fold_left Z.max (map year_of_row t) (year_of_row p) in
  render sd si None w (Ok t)
    = if (mn =? mx)%Z then (page_header ++ w, PageRaised StreamlitAPIException) else
      (page_header ++ w ++
       [WSlider mn mx; WSubheader (length t) mn mx;
        WHeader "1. Top 10 Publishing Journals"; WBar (top_journals sd 10 t);
        WHeader "2. Total Publications Over Time"; WLine (publications_over_time sd si t);
        WHeader "3. Top 10 Most Frequent Words";
        WBar (top_tokens full_text_interactive manual_stop_words_app 10 t);
        WHeader "Sample of Cleaned Data"; WTable (firstn 10 t)], PageDone).
Proof.
  intros t mn mx. destruct (render_years p t') as [Hb _]. cbv zeta in Hb. fold t mn mx in Hb.
  assert (Hf : filter (fun q => (mn <=? year_of_row q)%Z && (year_of_row q <=? mx)%Z) t = t).
  { apply filter_all. intros q Hq. destruct (Hb q Hq). apply andb_true_iff. lia. }
  unfold mn, mx in *. unfold t in *. cbv beta iota zeta delta [render].
  destruct (_ =? _)%Z; [reflexivity|]. rewrite Hf. reflexivity.
Qed.

(** The dashboard's first view (slider left at its default): the slider
    bounds are the smallest and largest publication year of the cleaned
    table, both attained.  When they coincide (every paper of one year)
    [st.slider] raises StreamlitAPIException; otherwise the filter keeps
    every paper, and all three panels and the sample are computed on the
    whole table. *)
Theorem render_default_view (sd : forall A : Type, list (A * nat) -> list (A * nat))
    (si : list (Z * nat) -> list (Z * nat)) (w : list Widget) (t : CTable) :
  t <> [] ->
  exists mn mx,
    (forall q, In q t -> mn <= year_of_row q <= mx)%Z /\
    (exists q, In q t /\ year_of_row q = mn) /\ (exists q, In q t /\ year_of_row q = mx) /\
    ((mn = mx /\ render sd si None w (Ok t) = (page_header ++ w, PageRaised StreamlitAPIException)) \/
     ((mn < mx)%Z /\
      render sd si None w (Ok t)
        = (page_header ++ w ++
           [WSlider mn mx; WSubheader (length t) mn mx;
            WHeader "1. Top 10 Publishing Journals"; WBar (top_journals sd 10 t);
            WHeader "2. Total Publications Over Time"; WLine (publications_over_time sd si t);
            WHeader "3. Top 10 Most Frequent Words";
            WBar (top_tokens full_text_interactive manual_stop_words_app 10 t);
            WHeader "Sample of Cleaned Data"; WTable (firstn 10 t)], PageDone))).
Proof.
  destruct t as [|p t']; [congruence|]. intros _.
  pose proof (render_none_cons sd si w p t') as Hr.
  destruct (render_years p t') as (Hb & Hm & HM).
  cbv zeta in Hr, Hb, Hm, HM.
  set (t := p :: t') in *.
  set (mn := fold_left Z.min (map year_of_row t) (year_of_row p)) in *.
  set (mx := fold_left Z.max (map year_of_row t) (year_of_row p)) in *.
  exists mn, mx. split; [exact Hb|]. split; [exact Hm|]. split; [exact HM|].
  case_eq (mn =? mx)%Z; intro E; rewrite E in Hr.
  - left. split; [now apply Z.eqb_eq | exact Hr].
  - right. split; [|exact Hr]. apply Z.eqb_neq in E.
    destruct Hm as [q [Hq _]]. destruct (Hb q Hq). lia.
Qed.

Lemma render_default_view_witness :
  (exists c, load_and_clean_data parse_iso gap_source "metadata.csv" 50000 = ([], Ok c) /\
     c <> [] /\
     exists mn mx, (forall q, In q c -> mn <= year_of_row q <= mx)%Z /\
       (exists q, In q c /\ year_of_row q = mn) /\ (exists q, In q c /\ year_of_row q = mx) /\
       ((mn = mx /\ render sd_stable si_insertion None [] (Ok c)
                     = (page_header ++ [], PageRaised StreamlitAPIException)) \/
        ((mn < mx)%Z /\
         render sd_stable si_insertion None [] (Ok c)
           = (page_header ++ [] ++
              [WSlider mn mx; WSubheader (length c) mn mx;
               WHeader "1. Top 10 Publishing Journals"; WBar (top_journals sd_stable 10 c);
               WHeader "2. Total Publications Over Time";
               WLine (publications_over_time sd_stable si_insertion c);
               WHeader "3. Top 10 Most Frequent Words";
               WBar (top_tokens full_text_interactive manual_stop_words_app 10 c);
               WHeader "Sample of Cleaned Data"; WTable (firstn 10 c)], PageDone)))) /\
  snd (render sd_stable si_insertion None []
         (Ok [(RangeLabel 0, jrow "A" 2020); (RangeLabel 1, jrow "B" 2020)]))
    = PageRaised StreamlitAPIException.
Proof.
  split; [|vm_compute; reflexivity].
  eexists. split; [vm_compute; reflexivity|]. split; [discriminate|].
  apply render_default_view. discriminate.
Defined.

(** A chosen year range [(a, b)] within the slider's bounds (some paper
    is at most [a], some paper at least [b], and the table has two
    different years, so the slider can be drawn) that some paper falls in:
    the subheader counts the papers of the range, the three panels and the
    sample are computed on exactly those papers, so every year on the time
    axis and every sample row lies within [a..b]. *)
Theorem render_selection (sd : forall A : Type, list (A * nat) -> list (A * nat))
    (si : list (Z * nat) -> list (Z * nat)) (w : list Widget) (t : CTable) (a b : Z) :
  sort_values_contract sd -> sort_index_contract si ->
  let f := filter (fun q => (a <=? year_of_row q)%Z && (year_of_row q <=? b)%Z) t in
  f <> [] ->
  (exists q, In q t /\ year_of_row q <= a)%Z ->
  (exists q, In q t /\ b <= year_of_row q)%Z ->
  (exists q q', In q t /\ In q' t /\ year_of_row q <> year_of_row q') ->
  (forall q, In q f <-> In q t /\ (a <= year_of_row q <= b)%Z) /\
  (forall y k, In (y, k) (publications_over_time sd si f) -> (a <= y <= b)%Z) /\
  (forall q, In q (firstn 10 f) -> (a <= year_of_row q <= b)%Z) /\
  exists mn mx, (mn <= a)%Z /\ (b <= mx)%Z /\ (mn < mx)%Z /\
    render sd si (Some (a, b)) w (Ok t)
      = (page_header ++ w ++
         [WSlider mn mx; WSubheader (length f) a b;
          WHeader "1. Top 10 Publishing Journals"; WBar (top_journals sd 10 f);
          WHeader "2. Total Publications Over Time"; WLine (publications_over_time sd si f);
          WHeader "3. Top 10 Most Frequent Words";
          WBar (top_tokens full_text_interactive manual_stop_words_app 10 f);
          WHeader "Sample of Cleaned Data"; WTable (firstn 10 f)], PageDone).
Proof.
  intros Hsd Hsi f Hne Hlo Hhi Hdiff.
  assert (Hf : forall q, In q f <-> In q t /\ (a <= year_of_row q <= b)%Z).
  { intro q. unfold f. rewrite filter_In, andb_true_iff, Z.leb_le, Z.leb_le. tauto. }
  split; [exact Hf|]. split; [|split].
  - intros y k H.
    set (c := counter Z.eq_dec (map year_of_row f)).
    destruct (Hsd Z c) as [P1 _]. destruct (Hsi (sd Z c)) as [P2 _].
    assert (Hc : In (y, k) c).
    { apply Permutation_in with (l := publications_over_time sd si f); [|exact H].
      symmetry. eapply perm_trans; [exact P1 | exact P2]. }
    assert (Hy : In y (map year_of_row f)).
    { apply (counter_keys Z.eq_dec), in_map_iff. now exists (y, k). }
    apply in_map_iff in Hy as [q [<- Hq]]. now apply Hf.
  - intros q Hq. apply in_firstn in Hq. now apply Hf.
  - destruct t as [|p t']; [exfalso; apply Hne; reflexivity|].
    destruct (render_years p t') as (Hb & _ & _).
    set (mn := fold_left Z.min (map year_of_row (p :: t')) (year_of_row p)) in *.
    set (mx := fold_left Z.max (map year_of_row (p :: t')) (year_of_row p)) in *.
    destruct f as [|q0 f'] eqn:Ef; [congruence|].
    assert (Hq0 : In q0 (p :: t') /\ (a <= year_of_row q0 <= b)%Z) by (apply Hf; now left).
    destruct Hq0 as [Hq0 Hy0]. destruct (Hb q0 Hq0) as [Hq0a Hq0b].
    destruct Hlo as [ql [Hql Hyl]]. destruct (Hb ql Hql) as [Hqla _].
    destruct Hhi as [qh [Hqh Hyh]]. destruct (Hb qh Hqh) as [_ Hqhb].
    destruct Hdiff as (q1 & q2 & Hq1 & Hq2 & Hne12).
    destruct (Hb q1 Hq1), (Hb q2 Hq2).
    assert (Emm : (mn =? mx)%Z = false) by (apply Z.eqb_neq; lia).
    assert (Ea : clamp mn mx a = a) by (unfold clamp; lia).
    assert (Eb : clamp mn mx b = b) by (unfold clamp; lia).
    exists mn, mx. split; [lia|]. split; [lia|]. split; [lia|].
    cbv beta iota zeta delta [render]. fold mn mx. rewrite Emm, Ea, Eb.
    change (filter (fun q => (a <=? year_of_row q)%Z && (year_of_row q <=? b)%Z) (p :: t'))
      with f. rewrite Ef. reflexivity.
Qed.

Lemma render_selection_witness :
  exists c, load_and_clean_data parse_iso gap_source "metadata.csv" 50000 = ([], Ok c) /\
    sort_values_contract sd_stable /\ sort_index_contract si_insertion /\
    filter (fun q => (2005 <=? year_of_row q)%Z && (year_of_row q <=? 2010)%Z) c <> [] /\
    (exists q, In q c /\ year_of_row q <= 2005)%Z /\
    (exists q, In q c /\ 2010 <= year_of_row q)%Z /\
    (exists q q', In q c /\ In q' c /\ year_of_row q <> year_of_row q') /\
    (forall q, In q (firstn 10 (filter (fun q => (2005 <=? year_of_row q)%Z &&
                                            (year_of_row q <=? 2010)%Z) c)) ->
               (2005 <= year_of_row q <= 2010)%Z).
Proof.
  eexists. split; [vm_compute; reflexivity|].
  split; [exact sd_stable_contract|]. split; [exact si_insertion_contract|].
  split; [vm_compute; discriminate|].
  split; [eexists; split; [left; reflexivity | vm_compute; discriminate]|].
  split; [eexists; split; [right; left; reflexivity | vm_compute; discriminate]|].
  split; [do 2 eexists; split; [left; reflexivity|]; split; [right; left; reflexivity|];
          vm_compute; discriminate|].
  refine (proj1 (proj2 (proj2 (render_selection sd_stable si_insertion [] _ 2005 2010
                                 sd_stable_contract si_insertion_contract _ _ _ _)))).
  - vm_compute. discriminate.
  - eexists. split; [left; reflexivity | vm_compute; discriminate].
  - eexists. split; [right; left; reflexivity | vm_compute; discriminate].
  - do 2 eexists. split; [left; reflexivity|]. split; [right; left; reflexivity|].
    vm_compute; discriminate.
Defined.












(** [@st.cache_data] keys on the arguments only: once a run has loaded the
    table (it did not raise), every later run is served from the cache,
    whatever the file on disk has become, and shows for any slider position
    what the first run's data gives. *)
Theorem cache_serves_stale (to_datetime : string -> option Date)
    (sd : forall A : Type, list (A * nat) -> list (A * nat))
    (si : list (Z * nat) -> list (Z * nat)) (fs1 fs2 : FS) (c : Cache) (sel sel' : option (Z * Z)) :
  (forall e, snd (fst (page to_datetime sd si fs1 c sel)) <> PageRaised e) ->
  fst (page to_datetime sd si fs2 (snd (page to_datetime sd si fs1 c sel)) sel')
    = fst (page to_datetime sd si fs1 c sel').
Proof.
  unfold page, cached_load.
  destruct (cache_lookup (FILE_PATH, 50000%N) c) as [[w t]|] eqn:Hc.
  - intros _. simpl. now rewrite Hc.
  - destruct (load_and_clean_data to_datetime fs1 FILE_PATH 50000%N) as [w [t|e]]; simpl.
    + intros _. reflexivity.
    + intro H. exfalso. exact (H e eq_refl).
Qed.

Lemma cache_serves_stale_witness :
  (forall e, snd (fst (page parse_iso sd_stable si_insertion gap_source [] None)) <> PageRaised e) /\
  fst (page parse_iso sd_stable si_insertion no_journal_source
         (snd (page parse_iso sd_stable si_insertion gap_source [] None)) (Some (2000%Z, 2005%Z)))
    = fst (page parse_iso sd_stable si_insertion gap_source [] (Some (2000%Z, 2005%Z))).
Proof.
  split; [vm_compute; intros e H; discriminate H|].
  apply cache_serves_stale. vm_compute. intros e H. discriminate H.
Defined.

(* ================================================================== *)
(** * The two [full_text] variants *)

(** The dashboard's [df['abstract'].fillna('')] never applies: the Cleaner
    keeps no row without an abstract, so on any cleaned table the batch
    [full_text] and the dashboard's coincide row by row, and the word
    counts of the two scripts agree for the same stopwords. *)
Theorem full_text_variants_agree (to_datetime : string -> option Date) (year_of : Z -> Z)
    (t : Table) (stop : list string) (n : nat) :
  (forall i c, In (i, c) (clean to_datetime year_of t) -> full_text_batch c = full_text_interactive c) /\
  top_tokens full_text_batch stop n (clean to_datetime year_of t)
    = top_tokens full_text_interactive stop n (clean to_datetime year_of t).
Proof.
  assert (H : forall i c, In (i, c) (clean to_datetime year_of t) ->
                          full_text_batch c = full_text_interactive c).
  { intros i c Hin. destruct (clean_origin _ _ _ _ _ Hin) as (_ & _ & _ & _ & _ & _ & Hna & _).
    unfold full_text_batch, full_text_interactive.
    destruct (c_title c); [|reflexivity]. destruct (c_abstract c); [reflexivity | congruence]. }
  split; [exact H|].
  unfold top_tokens. f_equal. apply map_ext_in. intros [i c] Hin. exact (H i c Hin).
Qed.
